(** * Quote of the day: the cache-aside lookup of [backend/main.py]

    A shallow embedding of the request handlers of the service (the
    [/quote] and [/health] routes and the helpers they call) together
    with the properties the design document states about them.

    The handlers talk to three outside parties: the Redis hash store,
    the wall clock and the ZenQuotes HTTP API.  They are gathered in one
    interface, [Runtime], and every handler is a computation in a small
    monad that threads the state of the outside world, may raise a
    Python exception, and records each outside call it makes. *)

From Stdlib Require Import ZArith String Ascii List Floats.SpecFloat Lia.
From stdpp Require Import base option gmap strings pretty list fin_maps.

#[local] Set Warnings "-register-all".
#[local] Open Scope string_scope.
#[local] Open Scope Z_scope.

(** ** Python values *)

(** What [json.loads] can produce. *)
Inductive PyVal :=
| PyNone
| PyBool (b : bool)
| PyInt (z : Z)
| PyFloat (f : spec_float)
| PyStr (s : string)
| PyList (l : list PyVal)
| PyDict (d : gmap string PyVal).

(** The exceptions that occur in the module.  [HTTPException] is the
    framework's; [AttributeError] comes from calling a method a value
    does not have; [KeyError] from subscripting a dict at a key it
    does not hold; [Exception] stands for whatever a library raises
    (transport errors of the Redis client or of the HTTP session). *)
Inductive PyExc :=
| HTTPException (status_code : Z) (detail : string)
| AttributeError (msg : string)
| KeyError (key : string)
| Exception (msg : string).

Inductive Outcome (A : Type) :=
| Return (a : A)
| Raise (e : PyExc).
Arguments Return {A} a.
Arguments Raise {A} e.

(** [str(e)] *)
Definition exc_str (e : PyExc) : string :=
  match e with
  | HTTPException c d => pretty c +:+ ": " +:+ d
  | AttributeError m => m
  | KeyError k => "'" +:+ k +:+ "'"
  | Exception m => m
  end.

(** [type(v).__name__] *)
Definition type_name (v : PyVal) : string :=
  match v with
  | PyNone => "NoneType"
  | PyBool _ => "bool"
  | PyInt _ => "int"
  | PyFloat _ => "float"
  | PyStr _ => "str"
  | PyList _ => "list"
  | PyDict _ => "dict"
  end.

(** Truth value of an object, as [or], [and], [not] and [if] test it. *)
Definition truthy (v : PyVal) : bool :=
  match v with
  | PyNone => false
  | PyBool b => b
  | PyInt z => negb (z =? 0)
  | PyFloat (S754_zero _) => false
  | PyFloat _ => true
  | PyStr EmptyString => false
  | PyStr _ => true
  | PyList [] => false
  | PyList _ => true
  | PyDict d => match map_to_list d with [] => false | _ => true end
  end.

(** [v or dflt] *)
Definition py_or (v dflt : PyVal) : PyVal := if truthy v then v else dflt.

Definition no_attribute (v : PyVal) (attr : string) : PyExc :=
  AttributeError ("'" +:+ type_name v +:+ "' object has no attribute '" +:+ attr +:+ "'").

(** [item.get(key)]: only a dict has the method; a missing key gives
    [None]. *)
Definition py_get (item : PyVal) (key : string) : Outcome PyVal :=
  match item with
  | PyDict d => Return (default PyNone (d !! key))
  | _ => Raise (no_attribute item "get")
  end.

(** A [str] is a [string] of code points below 256; on that range
    [str.isspace] holds of TAB..CR, FS..US, the space, NEL and NBSP. *)
Definition isspace (c : ascii) : bool :=
  let n := nat_of_ascii c in
  ((9 <=? n) && (n <=? 13) || (28 <=? n) && (n <=? 32) || (n =? 133) || (n =? 160))%nat.

Fixpoint lstrip (s : string) : string :=
  match s with
  | EmptyString => EmptyString
  | String c s' => if isspace c then lstrip s' else s
  end.

Fixpoint rstrip (s : string) : string :=
  match s with
  | EmptyString => EmptyString
  | String c s' =>
      match rstrip s' with
      | EmptyString => if isspace c then EmptyString else String c EmptyString
      | r => String c r
      end
  end.

(** [s.strip()] *)
Definition strip (s : string) : string := rstrip (lstrip s).

(** [v.strip()]: only a [str] has the method among the values above. *)
Definition py_strip (v : PyVal) : Outcome string :=
  match v with
  | PyStr s => Return (strip s)
  | _ => Raise (no_attribute v "strip")
  end.

(** ** Dates and times *)

Record Date := { d_year : Z; d_month : Z; d_day : Z }.

(** A [datetime].  The time zone is not recorded: [.date()] ignores it,
    and the only values that are formatted are readings of
    [datetime.now(timezone.utc)], whose offset is always [+00:00]. *)
Record DateTime := {
  year : Z; month : Z; day : Z;
  hour : Z; minute : Z; second : Z; microsecond : Z
}.

(** [dt.date()] *)
Definition date_of (dt : DateTime) : Date :=
  {| d_year := year dt; d_month := month dt; d_day := day dt |}.

#[global] Instance Date_eq_dec : EqDecision Date.
Proof. solve_decision. Defined.

(** [z] in decimal, padded with zeros on the left to [w] characters
    (the [%0wd] of the formatting code of [isoformat]). *)
Fixpoint zeros (n : nat) : string :=
  match n with O => EmptyString | S n' => String "0" (zeros n') end.

Definition zfill (w : nat) (z : Z) : string :=
  let s := pretty z in zeros (w - String.length s) +:+ s.

(** [dt.isoformat()] of an aware UTC datetime: the fraction is printed
    only when the microseconds are not zero. *)
Definition isoformat (dt : DateTime) : string :=
  zfill 4 (year dt) +:+ "-" +:+ zfill 2 (month dt) +:+ "-" +:+ zfill 2 (day dt)
  +:+ "T" +:+ zfill 2 (hour dt) +:+ ":" +:+ zfill 2 (minute dt) +:+ ":" +:+ zfill 2 (second dt)
  +:+ (if microsecond dt =? 0 then "" else "." +:+ zfill 6 (microsecond dt))
  +:+ "+00:00".

(** ** The outside world *)

(** An HTTP response as the handler reads it: [resp.status] and
    [await resp.text()]. *)
Record Response := { status : Z; body : string }.

(** What the module imports and calls.  [E] is the state of everything
    outside the process (the Redis database, the clock, the network);
    each call may change it.  A Redis or HTTP call either returns or
    raises.  The two parsers are pure: [None] stands for the exception
    they raise on text they do not accept. *)
Class Runtime (E : Type) := {
  redis_hgetall : string -> E -> Outcome (gmap string string) * E;
  redis_hset : string -> gmap string string -> E -> Outcome Z * E;
  datetime_now : E -> DateTime * E;
  session_get : string -> Z -> E -> Outcome Response * E;
  fromisoformat : string -> option DateTime;
  json_loads : string -> option PyVal
}.

(** The calls a handler makes on the outside world, in order. *)
Inductive Event :=
| EvHgetall (key : string)
| EvHset (key : string) (values : gmap string string)
| EvNow
| EvGet (url : string)
| EvPrint (line : string).

(** A computation: from the state of the world to an outcome, the new
    state, and the calls made. *)
Definition M (E A : Type) : Type := E -> Outcome A * E * list Event.

#[global] Instance M_ret {E} : MRet (M E) :=
  fun A (a : A) e => (Return a, e, []).

#[global] Instance M_bind {E} : MBind (M E) :=
  fun A B (k : A -> M E B) (m : M E A) e =>
    match m e with
    | (Return a, e1, t1) =>
        match k a e1 with
        | (r, e2, t2) => (r, e2, (t1 ++ t2)%list)
        end
    | (Raise x, e1, t1) => (Raise x, e1, t1)
    end.

Definition raise {E A} (x : PyExc) : M E A := fun e => (Raise x, e, []).

Definition lift {E A} (o : Outcome A) : M E A := fun e => (o, e, []).

(** [try: body  except Exception as x: handler x] *)
Definition try_except {E A} (body : M E A) (handler : PyExc -> M E A) : M E A :=
  fun e =>
    match body e with
    | (Return a, e1, t1) => (Return a, e1, t1)
    | (Raise x, e1, t1) =>
        match handler x e1 with
        | (r, e2, t2) => (r, e2, (t1 ++ t2)%list)
        end
    end.

(** ** The handlers *)

(** The response body of [/quote]; [stored_at] is [None] when the cached
    hash has no such field. *)
Record QuoteRecord := {
  qr_date : string;
  qr_text : string;
  qr_author : string;
  qr_source : string;
  qr_stored_at : option string
}.

(** The dict [fetch_zenquotes] returns. *)
Record Quote := { q_text : string; q_author : string }.

(** What [health] returns: a plain dict, which the framework sends with
    status 200, or an explicit [JSONResponse]. *)
Inductive HealthReply :=
| HealthDict (ok : bool)
| JSONResponse (status_code : Z) (ok : bool) (error : string).

(** Truth value of the dict [hgetall] returned, and of [cached.get(k)]. *)
Definition dict_truthy (d : gmap string string) : bool :=
  match map_to_list d with [] => false | _ => true end.

Definition get_truthy (o : option string) : bool :=
  match o with
  | Some (String _ _) => true
  | _ => false
  end.

(** [cached[k]] *)
Definition subscript (d : gmap string string) (k : string) : Outcome string :=
  match d !! k with
  | Some v => Return v
  | None => Raise (KeyError k)
  end.

(** Seconds. *)
Definition API_TIMEOUT : Z := 15.

Definition rkey (date_str : string) : string := "quote:" +:+ date_str.

Section Handlers.
Context {E : Type} `{!Runtime E}.

(** The outside calls, each recorded as it is made. *)
Definition hgetall (key : string) : M E (gmap string string) :=
  fun e => let '(r, e') := redis_hgetall key e in (r, e', [EvHgetall key]).

Definition hset (key : string) (values : gmap string string) : M E Z :=
  fun e => let '(r, e') := redis_hset key values e in (r, e', [EvHset key values]).

Definition now : M E DateTime :=
  fun e => let '(dt, e') := datetime_now e in (Return dt, e', [EvNow]).

Definition get (url : string) (timeout : Z) : M E Response :=
  fun e => let '(r, e') := session_get url timeout e in (r, e', [EvGet url]).

Definition print (line : string) : M E unit :=
  fun e => (Return tt, e, [EvPrint line]).

Definition to_iso_now : M E string :=
  dt ← now; mret (isoformat dt).

Definition format_date_or_400 (date : string) : M E DateTime :=
  match fromisoformat date with
  | Some dt => mret dt
  | None => raise (HTTPException 400 "Invalid date format, use YYYY-MM-DD")
  end.

Definition fetch_zenquotes (is_today : bool) : M E Quote :=
  let url := if is_today then "https://zenquotes.io/api/today"
             else "https://zenquotes.io/api/random" in
  resp ← get url API_TIMEOUT;
  let text := body resp in
  if negb (status resp =? 200) then
    raise (HTTPException 502
             ("ZenQuotes " +:+ pretty (status resp) +:+ ": " +:+ substring 0 160 text))
  else
    match json_loads text with
    | None =>
        raise (HTTPException 502 ("ZenQuotes non-JSON: " +:+ substring 0 160 text))
    | Some data =>
        match data with
        | PyList (item :: _) =>
            q ← lift (py_get item "q");
            t ← lift (py_strip (py_or q (PyStr "")));
            a ← lift (py_get item "a");
            au ← lift (py_strip (py_or a (PyStr "Unknown")));
            mret {| q_text := t; q_author := au |}
        | _ => raise (HTTPException 502 "Unexpected ZenQuotes payload")
        end
    end.

Definition health : M E HealthReply :=
  try_except
    (ts ← to_iso_now;
     _ ← hset "qotd:health" (<["ok" := "1"]> (<["ts" := ts]> ∅));
     probe ← hgetall "qotd:health";
     mret (HealthDict (bool_decide (probe !! "ok" = Some "1"))))
    (fun e => mret (JSONResponse 500 false (exc_str e))).

(** The first [try] block either returns from the handler ([Some]) or
    falls through to the fetch ([None]). *)
Definition get_quote (date : string) : M E QuoteRecord :=
  dt ← format_date_or_400 date;
  let key := rkey date in
  hit ← try_except
          (cached ← hgetall key;
           if dict_truthy cached && get_truthy (cached !! "text")
              && get_truthy (cached !! "author")
           then
             t ← lift (subscript cached "text");
             a ← lift (subscript cached "author");
             mret (Some {| qr_date := date;
                           qr_text := t;
                           qr_author := a;
                           qr_source := default "zenquotes" (cached !! "source");
                           qr_stored_at := cached !! "stored_at" |})
           else mret None)
          (fun e => _ ← print ("Redis HGETALL error: " +:+ exc_str e); mret None);
  match hit with
  | Some r => mret r
  | None =>
      today ← now;
      let is_today := bool_decide (date_of dt = date_of today) in
      q ← fetch_zenquotes is_today;
      ts ← to_iso_now;
      let payload := {| qr_date := date;
                        qr_text := q_text q;
                        qr_author := q_author q;
                        qr_source := "zenquotes";
                        qr_stored_at := Some ts |} in
      _ ← try_except
            (_ ← hset key (<["text" := qr_text payload]>
                           (<["author" := qr_author payload]>
                            (<["source" := qr_source payload]>
                             (<["stored_at" := ts]> ∅))));
             mret tt)
            (fun e => print ("Redis HSET error: " +:+ exc_str e));
      mret payload
  end.

End Handlers.

Arguments fetch_zenquotes : simpl never.

(** The status line the framework sends: a returned value goes out with
    200, an [HTTPException] with its own code, any other exception with
    500. *)
Definition status_of {A} (o : Outcome A) : Z :=
  match o with
  | Return _ => 200
  | Raise (HTTPException c _) => c
  | Raise _ => 500
  end.

Definition health_status (r : HealthReply) : Z :=
  match r with
  | HealthDict _ => 200
  | JSONResponse c _ _ => c
  end.

(** ** A simulated world

    An in-memory hash store whose calls fail on a schedule, a scripted
    clock and a scripted upstream.  It is one instance of [Runtime];
    the general properties below hold of every instance, and this one
    serves to run the handlers on concrete requests. *)

Record Sim := {
  store : gmap string (gmap string string);
  redis_fault : nat -> option string;
  redis_calls : nat;
  clock : nat -> DateTime;
  clock_reads : nat;
  upstream : nat -> string -> Outcome Response;
  upstream_calls : nat
}.

Definition sim_redis_tick (s : Sim) (st : gmap string (gmap string string)) : Sim :=
  {| store := st;
     redis_fault := redis_fault s; redis_calls := S (redis_calls s);
     clock := clock s; clock_reads := clock_reads s;
     upstream := upstream s; upstream_calls := upstream_calls s |}.

(** HGETALL: the hash at [key], empty when there is none. *)
Definition sim_hgetall (key : string) (s : Sim) : Outcome (gmap string string) * Sim :=
  match redis_fault s (redis_calls s) with
  | Some msg => (Raise (Exception msg), sim_redis_tick s (store s))
  | None => (Return (default ∅ (store s !! key)), sim_redis_tick s (store s))
  end.

(** HSET: the given fields are set and the other fields of the hash
    stay; the reply counts the fields that were new. *)
Definition sim_hset (key : string) (values : gmap string string) (s : Sim)
  : Outcome Z * Sim :=
  match redis_fault s (redis_calls s) with
  | Some msg => (Raise (Exception msg), sim_redis_tick s (store s))
  | None =>
      let old := default ∅ (store s !! key) in
      (Return (Z.of_nat (size (values ∖ old))),
       sim_redis_tick s (<[key := values ∪ old]> (store s)))
  end.

Definition sim_now (s : Sim) : DateTime * Sim :=
  (clock s (clock_reads s),
   {| store := store s;
      redis_fault := redis_fault s; redis_calls := redis_calls s;
      clock := clock s; clock_reads := S (clock_reads s);
      upstream := upstream s; upstream_calls := upstream_calls s |}).

Definition sim_get (url : string) (timeout : Z) (s : Sim) : Outcome Response * Sim :=
  (upstream s (upstream_calls s) url,
   {| store := store s;
      redis_fault := redis_fault s; redis_calls := redis_calls s;
      clock := clock s; clock_reads := clock_reads s;
      upstream := upstream s; upstream_calls := S (upstream_calls s) |}).

(** The date-only part of [datetime.fromisoformat]: exactly
    [YYYY-MM-DD] with a day that exists, read as midnight.  (The
    library accepts more forms; this instance rejects them.) *)
Definition digit (c : ascii) : option Z :=
  let n := Z.of_nat (nat_of_ascii c) in
  if (48 <=? n) && (n <=? 57) then Some (n - 48) else None.

Definition is_leap (y : Z) : bool :=
  (y mod 4 =? 0) && (negb (y mod 100 =? 0) || (y mod 400 =? 0)).

Definition days_in_month (y m : Z) : Z :=
  if m =? 2 then (if is_leap y then 29 else 28)
  else if (m =? 4) || (m =? 6) || (m =? 9) || (m =? 11) then 30
  else 31.

Definition is_dash (c : ascii) : bool := (nat_of_ascii c =? 45)%nat.

Definition fromisoformat_date (s : string) : option DateTime :=
  match list_ascii_of_string s with
  | [y1; y2; y3; y4; s1; m1; m2; s2; d1; d2] =>
      a ← digit y1; b ← digit y2; c ← digit y3; d ← digit y4;
      m ← digit m1; n ← digit m2;
      p ← digit d1; q ← digit d2;
      let yy := 1000 * a + 100 * b + 10 * c + d in
      let mm := 10 * m + n in
      let dd := 10 * p + q in
      if is_dash s1 && is_dash s2
         && (1 <=? yy) && (1 <=? mm) && (mm <=? 12)
         && (1 <=? dd) && (dd <=? days_in_month yy mm)
      then Some {| year := yy; month := mm; day := dd;
                   hour := 0; minute := 0; second := 0; microsecond := 0 |}
      else None
  | _ => None
  end.

Definition sim_runtime (loads : string -> option PyVal) : Runtime Sim :=
  {| redis_hgetall := sim_hgetall;
     redis_hset := sim_hset;
     datetime_now := sim_now;
     session_get := sim_get;
     fromisoformat := fromisoformat_date;
     json_loads := loads |}.

(** A reply of the upstream with one quote, and a parser that reads
    such a reply back.  The body stands for the JSON text; the parser is
    a table with this one line. *)
Definition one_quote (q a : PyVal) : PyVal :=
  PyList [PyDict (<["q" := q]> (<["a" := a]> ∅))].

Definition loads_as (v : PyVal) (s : string) : option PyVal :=
  if String.eqb s "<payload>" then Some v else None.

Definition at_time (y m d hh mi ss us : Z) : DateTime :=
  {| year := y; month := m; day := d;
     hour := hh; minute := mi; second := ss; microsecond := us |}.

(** The world of the examples: Redis holds [st] and fails as [faults]
    says, it is 2024-01-01 12:30:05.000250 UTC at every reading, and
    the upstream answers every request with [reply]. *)
Definition sim_world (st : gmap string (gmap string string))
    (faults : nat -> option string) (reply : Outcome Response) : Sim :=
  {| store := st;
     redis_fault := faults; redis_calls := 0;
     clock := fun _ => at_time 2024 1 1 12 30 5 250; clock_reads := 0;
     upstream := fun _ _ => reply; upstream_calls := 0 |}.

Definition ok_reply : Outcome Response := Return {| status := 200; body := "<payload>" |}.

Definition error_reply : Outcome Response :=
  Return {| status := 500; body := "Internal Server Error" |}.

(** A parser that accepts nothing. *)
Definition loads_nothing (s : string) : option PyVal := None.

Definition no_faults : nat -> option string := fun _ => None.
Definition all_faults : nat -> option string := fun _ => Some "connection refused".

(** The handlers run in the simulated world. *)
Definition sim_get_quote (loads : string -> option PyVal) (date : string)
  : M Sim QuoteRecord :=
  @get_quote Sim (sim_runtime loads) date.

Definition sim_health (loads : string -> option PyVal) : M Sim HealthReply :=
  @health Sim (sim_runtime loads).

(** The cache of the idempotence example of the design document, and a
    cache whose entry has an empty text. *)
Definition kind_entry : gmap string string :=
  <["text" := "Be kind."]> (<["author" := "Anon"]> ∅).

Definition kind_store : gmap string (gmap string string) :=
  <[rkey "2024-01-01" := kind_entry]> ∅.

Definition empty_text_entry : gmap string string :=
  <["text" := ""]> (<["author" := "Anon"]> ∅).

Definition empty_text_store : gmap string (gmap string string) :=
  <[rkey "2024-01-01" := empty_text_entry]> ∅.

Definition horace : PyVal := one_quote (PyStr "Carpe diem") (PyStr "Horace").

(** ** Vocabulary of the design document *)

(** A cached hash is worth serving when its [text] and [author] fields
    are both present and non-empty. *)
Definition hit_worthy (m : gmap string string) : Prop :=
  ∃ t a, m !! "text" = Some t ∧ t ≠ "" ∧ m !! "author" = Some a ∧ a ≠ "".

(** The read of the cache served the request: it returned a hash worth
    serving.  A read that raises serves nothing. *)
Definition cache_hit (ro : Outcome (gmap string string)) : Prop :=
  ∃ m, ro = Return m ∧ hit_worthy m.

(** The record built from a cached hash. *)
Definition cached_record (date : string) (m : gmap string string) (t a : string)
  : QuoteRecord :=
  {| qr_date := date; qr_text := t; qr_author := a;
     qr_source := default "zenquotes" (m !! "source");
     qr_stored_at := m !! "stored_at" |}.

(** The record built from a fetched quote at clock reading [t]. *)
Definition fresh_record (date : string) (q : Quote) (t : DateTime) : QuoteRecord :=
  {| qr_date := date; qr_text := q_text q; qr_author := q_author q;
     qr_source := "zenquotes"; qr_stored_at := Some (isoformat t) |}.

(** The fields written for it. *)
Definition stored_fields (q : Quote) (t : DateTime) : gmap string string :=
  <["text" := q_text q]>
    (<["author" := q_author q]>
       (<["source" := "zenquotes"]> (<["stored_at" := isoformat t]> ∅))).

(** The lines printed when a cache call raised. *)
Definition read_log {A} (ro : Outcome A) : list Event :=
  match ro with
  | Raise x => [EvPrint ("Redis HGETALL error: " +:+ exc_str x)]
  | Return _ => []
  end.

Definition write_log {A} (wo : Outcome A) : list Event :=
  match wo with
  | Raise x => [EvPrint ("Redis HSET error: " +:+ exc_str x)]
  | Return _ => []
  end.

Definition endpoint (is_today : bool) : string :=
  if is_today then "https://zenquotes.io/api/today"
  else "https://zenquotes.io/api/random".

(** The events of the miss path, when the fetch raised and when it
    returned. *)
Definition miss_events_raised (date : string) (ro : Outcome (gmap string string))
    (url : string) : list Event :=
  EvHgetall (rkey date) :: read_log ro ++ [EvNow; EvGet url].

Definition miss_events_returned (date : string) (ro : Outcome (gmap string string))
    (url : string) (q : Quote) (t2 : DateTime) (wo : Outcome Z) : list Event :=
  EvHgetall (rkey date) :: read_log ro
    ++ [EvNow; EvGet url; EvNow; EvHset (rkey date) (stored_fields q t2)]
    ++ write_log wo.

(** The three ways a reply of the upstream is refused. *)
Definition bad_reply `{!Runtime E} (resp : Response) : Prop :=
  status resp ≠ 200
  ∨ json_loads (body resp) = None
  ∨ ∃ data, json_loads (body resp) = Some data
            ∧ ((∀ l, data ≠ PyList l) ∨ data = PyList []).

(** How the two fields of the first item of a reply are read: trimmed
    when they are strings; a value that tests false (missing, [null],
    the empty string, ...) gives the empty text and the author
    ["Unknown"]. *)
Definition text_of_field (v : PyVal) : string :=
  match v with
  | PyStr s => strip s
  | _ => ""
  end.

Definition author_of_field (v : PyVal) : string :=
  match v with
  | PyStr EmptyString => "Unknown"
  | PyStr s => strip s
  | _ => "Unknown"
  end.

(** A field of the first item that the handler can read as text: a
    string, [null], or no field at all. *)
Definition is_text (o : option PyVal) : Prop :=
  o = None ∨ o = Some PyNone ∨ ∃ s, o = Some (PyStr s).

(** Projections of a run. *)
Definition outcome {E A} (r : Outcome A * E * list Event) : Outcome A := r.1.1.
Definition events {E A} (r : Outcome A * E * list Event) : list Event := r.2.

(** ** Configuration read when the module is imported *)

(** [s.split(sep)] for a one-character separator: every occurrence
    cuts, so two separators in a row give an empty piece and the empty
    string gives one empty piece. *)
Fixpoint str_split (sep : ascii) (s : string) : list string :=
  match s with
  | EmptyString => [EmptyString]
  | String c s' =>
      if Ascii.eqb c sep then EmptyString :: str_split sep s'
      else match str_split sep s' with
           | w :: ws => String c w :: ws
           | [] => [String c EmptyString]
           end
  end.

(** [sep.join(l)] *)
Fixpoint str_join (sep : ascii) (l : list string) : string :=
  match l with
  | [] => EmptyString
  | [w] => w
  | w :: ws => w +:+ String sep (str_join sep ws)
  end.

(** [os.getenv(k1) or os.getenv(k2)]: the first when it is set and not
    empty, and otherwise the second, whatever it is. *)
Definition getenv_or (env : gmap string string) (k1 k2 : string) : option string :=
  if get_truthy (env !! k1) then env !! k1 else env !! k2.

(** The module-level names bound by the configuration block. *)
Record Config := {
  CORS_ALLOWED : list string;
  UPSTASH_URL : option string;
  UPSTASH_TOKEN : option string
}.

(** Importing the module either binds the configuration or raises the
    [RuntimeError]. *)
Inductive Startup :=
| Started (c : Config)
| RuntimeError (msg : string).

Definition load_config (env : gmap string string) : Startup :=
  let cors := str_split "," (default "*" (env !! "CORS_ALLOW_ORIGINS")) in
  let url := getenv_or env "UPSTASH_REDIS_REST_URL" "UPSTASH_REDIS_URL" in
  let token := getenv_or env "UPSTASH_REDIS_REST_TOKEN" "UPSTASH_REDIS_TOKEN" in
  if negb (get_truthy url) || negb (get_truthy token) then
    RuntimeError ("Missing Upstash REST creds. Set UPSTASH_REDIS_REST_URL and "
                  +:+ "UPSTASH_REDIS_REST_TOKEN in your environment.")
  else
    Started {| CORS_ALLOWED := cors; UPSTASH_URL := url; UPSTASH_TOKEN := token |}.

(** ** Vocabulary of the further properties *)

(** The addresses requested and the cache writes made, in order. *)
Definition gets (evs : list Event) : list string :=
  omap (fun ev => match ev with EvGet url => Some url | _ => None end) evs.

Definition writes (evs : list Event) : list (string * gmap string string) :=
  omap (fun ev => match ev with EvHset k v => Some (k, v) | _ => None end) evs.

Definition starts_with_space (s : string) : bool :=
  match s with
  | String c _ => isspace c
  | EmptyString => false
  end.

Fixpoint ends_with_space (s : string) : bool :=
  match s with
  | EmptyString => false
  | String c EmptyString => isspace c
  | String _ s' => ends_with_space s'
  end.

Fixpoint all_space (s : string) : bool :=
  match s with
  | EmptyString => true
  | String c s' => isspace c && all_space s'
  end.

Fixpoint has_char (c : ascii) (s : string) : bool :=
  match s with
  | EmptyString => false
  | String c' s' => Ascii.eqb c' c || has_char c s'
  end.

Fixpoint count_char (c : ascii) (s : string) : nat :=
  match s with
  | EmptyString => O
  | String c' s' => (if Ascii.eqb c' c then 1 else 0) + count_char c s'
  end.

(** An event of the health probe: a clock reading or a call on the
    probe key. *)
Definition probe_event (ev : Event) : Prop :=
  ev = EvNow ∨ ev = EvHgetall "qotd:health" ∨ ∃ v, ev = EvHset "qotd:health" v.

(** An environment for the examples: the REST name of the URL is set
    but empty, the other name holds it; the token is under its REST
    name; two origins are allowed. *)
Definition example_env : gmap string string :=
  <["UPSTASH_REDIS_REST_URL" := ""]>
    (<["UPSTASH_REDIS_URL" := "https://redis.example"]>
       (<["UPSTASH_REDIS_REST_TOKEN" := "secret"]>
          (<["CORS_ALLOW_ORIGINS" := "https://a.example, https://b.example"]> ∅))).

(** A Redis that acknowledges a write and drops it, for the probe
    whose read does not see its write. *)
Definition sim_hset_lost (key : string) (values : gmap string string) (s : Sim)
  : Outcome Z * Sim :=
  (Return 0, sim_redis_tick s (store s)).

Definition lossy_runtime (loads : string -> option PyVal) : Runtime Sim :=
  {| redis_hgetall := sim_hgetall;
     redis_hset := sim_hset_lost;
     datetime_now := sim_now;
     session_get := sim_get;
     fromisoformat := fromisoformat_date;
     json_loads := loads |}.

(** A parser for two bodies whose arrays begin with the same item, and
    a reply with the longer one. *)
Definition loads_item (item : PyVal) (s : string) : option PyVal :=
  if String.eqb s "<payload>" then Some (PyList [item])
  else Some (PyList [item; PyNone]).

Definition long_reply : Outcome Response :=
  Return {| status := 200; body := "<longer payload>" |}.

(** An HTTP call that raises. *)
Definition timeout_reply : Outcome Response := Raise (Exception "TimeoutError").

(** ** Basic facts *)

Ltac unfold_m :=
  unfold try_except, print, to_iso_now, mbind, M_bind, mret, M_ret, raise, lift.

Lemma dict_truthy_lookup (m : gmap string string) (k v : string) :
  m !! k = Some v → dict_truthy m = true.
Proof.
  intros Hk. unfold dict_truthy.
  destruct (map_to_list m) as [|kv l] eqn:Hl; [|done].
  apply map_to_list_empty_iff in Hl. subst m. by rewrite lookup_empty in Hk.
Qed.

Lemma get_truthy_spec (o : option string) :
  get_truthy o = true ↔ ∃ v, o = Some v ∧ v ≠ "".
Proof.
  split.
  - destruct o as [[|c s]|]; simpl; try discriminate. intros _. by eexists.
  - intros (v & -> & Hv). by destruct v.
Qed.

Lemma hit_worthy_guard (m : gmap string string) :
  dict_truthy m && get_truthy (m !! "text") && get_truthy (m !! "author") = true
  ↔ hit_worthy m.
Proof.
  split.
  - intros H. apply andb_prop in H as [H Ha]. apply andb_prop in H as [_ Ht].
    apply get_truthy_spec in Ht as (t & Ht & Hnt).
    apply get_truthy_spec in Ha as (a & Ha & Hna).
    by exists t, a.
  - intros (t & a & Ht & Hnt & Ha & Hna).
    rewrite (dict_truthy_lookup m "text" t Ht). simpl.
    apply andb_true_intro; split; apply get_truthy_spec; eauto.
Qed.

#[global] Instance hit_worthy_dec (m : gmap string string) : Decision (hit_worthy m).
Proof.
  destruct (dict_truthy m && get_truthy (m !! "text") && get_truthy (m !! "author"))
    eqn:Hg.
  - left. by apply hit_worthy_guard.
  - right. intros H. apply hit_worthy_guard in H. congruence.
Defined.

Lemma py_get_not_http (item : PyVal) (k : string) (c : Z) (d : string) :
  py_get item k ≠ Raise (HTTPException c d).
Proof. by destruct item. Qed.

Lemma py_strip_not_http (v : PyVal) (c : Z) (d : string) :
  py_strip v ≠ Raise (HTTPException c d).
Proof. by destruct v. Qed.

Lemma rkey_inj (d1 d2 : string) : rkey d1 = rkey d2 → d1 = d2.
Proof. unfold rkey. intros H. cbn in H. by simplify_eq. Qed.

Section Properties.
Context {E : Type} `{!Runtime E}.

Lemma hgetall_eq (key : string) (e e' : E) (r : Outcome (gmap string string)) :
  redis_hgetall key e = (r, e') → hgetall key e = (r, e', [EvHgetall key]).
Proof. intros H. unfold hgetall. by rewrite H. Qed.

Lemma hset_eq (key : string) (v : gmap string string) (e e' : E) (r : Outcome Z) :
  redis_hset key v e = (r, e') → hset key v e = (r, e', [EvHset key v]).
Proof. intros H. unfold hset. by rewrite H. Qed.

Lemma now_eq (e e' : E) (t : DateTime) :
  datetime_now e = (t, e') → now e = (Return t, e', [EvNow]).
Proof. intros H. unfold now. by rewrite H. Qed.

Lemma get_eq (url : string) (timeout : Z) (e e' : E) (r : Outcome Response) :
  session_get url timeout e = (r, e') → get url timeout e = (r, e', [EvGet url]).
Proof. intros H. unfold get. by rewrite H. Qed.

Lemma get_quote_bad_date (date : string) (e : E) :
  fromisoformat date = None →
  get_quote date e
  = (Raise (HTTPException 400 "Invalid date format, use YYYY-MM-DD"), e, []).
Proof.
  intros Hd. unfold get_quote, format_date_or_400. rewrite Hd. reflexivity.
Qed.

Lemma get_quote_hit (date : string) (dt : DateTime) (e e1 : E)
    (m : gmap string string) (t a : string) :
  fromisoformat date = Some dt →
  redis_hgetall (rkey date) e = (Return m, e1) →
  m !! "text" = Some t → t ≠ "" →
  m !! "author" = Some a → a ≠ "" →
  get_quote date e = (Return (cached_record date m t a), e1, [EvHgetall (rkey date)]).
Proof.
  intros Hd Hr Ht Hnt Ha Hna.
  assert (Hg : hit_worthy m) by (by exists t, a).
  apply hit_worthy_guard in Hg.
  unfold get_quote, format_date_or_400. rewrite Hd. unfold_m. simpl.
  rewrite (hgetall_eq _ _ _ _ Hr), Hg. unfold subscript. rewrite Ht, Ha. reflexivity.
Qed.

(** The miss path, when the fetch raises: the exception goes through
    and nothing is written. *)
Lemma get_quote_miss_fetch_raises (date : string) (dt today : DateTime)
    (e e1 e2 e3 : E) (ro : Outcome (gmap string string)) (x : PyExc)
    (tf : list Event) :
  fromisoformat date = Some dt →
  redis_hgetall (rkey date) e = (ro, e1) →
  ¬ cache_hit ro →
  datetime_now e1 = (today, e2) →
  fetch_zenquotes (bool_decide (date_of dt = date_of today)) e2 = (Raise x, e3, tf) →
  get_quote date e
  = (Raise x, e3, EvHgetall (rkey date) :: read_log ro ++ EvNow :: tf).
Proof.
  intros Hd Hr Hmiss Hn Hf.
  unfold get_quote, format_date_or_400. rewrite Hd. unfold_m. simpl.
  rewrite (hgetall_eq _ _ _ _ Hr). destruct ro as [m|y]; simpl.
  - destruct (dict_truthy m && get_truthy (m !! "text") && get_truthy (m !! "author"))
      eqn:Hg.
    { exfalso. apply Hmiss. exists m. split; [done|]. by apply hit_worthy_guard. }
    simpl. rewrite (now_eq _ _ _ Hn), Hf. reflexivity.
  - rewrite (now_eq _ _ _ Hn), Hf. reflexivity.
Qed.

(** The miss path, when the fetch returns: the record is built, the
    write is attempted, and the record is returned whatever the write
    did. *)
Lemma get_quote_miss_fetch_returns (date : string) (dt today t2 : DateTime)
    (e e1 e2 e3 e4 e5 : E) (ro : Outcome (gmap string string)) (q : Quote)
    (tf : list Event) (wo : Outcome Z) :
  fromisoformat date = Some dt →
  redis_hgetall (rkey date) e = (ro, e1) →
  ¬ cache_hit ro →
  datetime_now e1 = (today, e2) →
  fetch_zenquotes (bool_decide (date_of dt = date_of today)) e2 = (Return q, e3, tf) →
  datetime_now e3 = (t2, e4) →
  redis_hset (rkey date) (stored_fields q t2) e4 = (wo, e5) →
  get_quote date e
  = (Return (fresh_record date q t2), e5,
     EvHgetall (rkey date) :: read_log ro ++ EvNow :: tf
       ++ [EvNow; EvHset (rkey date) (stored_fields q t2)] ++ write_log wo).
Proof.
  intros Hd Hr Hmiss Hn Hf Hn2 Hw.
  unfold get_quote, format_date_or_400. rewrite Hd. unfold_m. simpl.
  rewrite (hgetall_eq _ _ _ _ Hr). unfold stored_fields in Hw.
  destruct ro as [m|y]; simpl.
  - destruct (dict_truthy m && get_truthy (m !! "text") && get_truthy (m !! "author"))
      eqn:Hg.
    { exfalso. apply Hmiss. exists m. split; [done|]. by apply hit_worthy_guard. }
    simpl. rewrite (now_eq _ _ _ Hn), Hf. simpl.
    rewrite (now_eq _ _ _ Hn2). simpl. rewrite (hset_eq _ _ _ _ _ Hw).
    destruct wo; simpl; rewrite ?app_nil_r; reflexivity.
  - rewrite (now_eq _ _ _ Hn), Hf. simpl.
    rewrite (now_eq _ _ _ Hn2). simpl. rewrite (hset_eq _ _ _ _ _ Hw).
    destruct wo; simpl; rewrite ?app_nil_r; reflexivity.
Qed.

(** The fetch makes one request, to the endpoint chosen, and whatever
    it does afterwards is no outside call. *)
Lemma fetch_zenquotes_get (is_today : bool) (e e' : E) (r : Outcome Response) :
  session_get (endpoint is_today) API_TIMEOUT e = (r, e') →
  ∃ o, fetch_zenquotes is_today e = (o, e', [EvGet (endpoint is_today)])
       ∧ (∀ x, r = Raise x → o = Raise x).
Proof.
  intros Hg. unfold fetch_zenquotes. fold (endpoint is_today).
  unfold_m. rewrite (get_eq _ _ _ _ _ Hg).
  assert (Hfin : ∀ o : Outcome Quote, (∀ x, r = Raise x → o = Raise x) →
            ∃ o', (o, e', [EvGet (endpoint is_today)])
                  = (o', e', [EvGet (endpoint is_today)])
                  ∧ (∀ x, r = Raise x → o' = Raise x)) by eauto.
  destruct r as [resp|x]; [|apply Hfin; by intros ? [= ->]].
  destruct (negb (status resp =? 200)); [by apply Hfin|].
  destruct (json_loads (body resp)) as [data|]; [|by apply Hfin].
  destruct data as [| | | | |[|item l]|]; try by apply Hfin.
  destruct (py_get item "q") as [q|x]; simpl; [|by apply Hfin].
  destruct (py_strip (py_or q (PyStr ""))) as [t|x]; simpl; [|by apply Hfin].
  destruct (py_get item "a") as [a|x]; simpl; [|by apply Hfin].
  destruct (py_strip (py_or a (PyStr "Unknown"))) as [au|x]; simpl; by apply Hfin.
Qed.

Lemma strip_or_text (v : PyVal) (t : string) :
  py_strip (py_or v (PyStr "")) = Return t → t = text_of_field v.
Proof.
  unfold py_or. destruct v as [|b|z|f|s|l|d]; simpl.
  - by intros [= <-].
  - destruct b; simpl; [done | by intros [= <-]].
  - destruct (negb (z =? 0)); simpl; [done | by intros [= <-]].
  - destruct f; simpl; try done. by intros [= <-].
  - destruct s; simpl; by intros [= <-].
  - destruct l; simpl; [by intros [= <-] | done].
  - destruct (map_to_list d); simpl; [by intros [= <-] | done].
Qed.

Lemma strip_or_author (v : PyVal) (a : string) :
  py_strip (py_or v (PyStr "Unknown")) = Return a → a = author_of_field v.
Proof.
  unfold py_or. destruct v as [|b|z|f|s|l|d]; simpl.
  - by intros [= <-].
  - destruct b; simpl; [done | by intros [= <-]].
  - destruct (negb (z =? 0)); simpl; [done | by intros [= <-]].
  - destruct f; simpl; try done. by intros [= <-].
  - destruct s; simpl; by intros [= <-].
  - destruct l; simpl; [by intros [= <-] | done].
  - destruct (map_to_list d); simpl; [by intros [= <-] | done].
Qed.

(** A quote comes back only from a 200 reply whose body parses to a
    non-empty array with a dict in front, and is read off that dict. *)
Lemma fetch_zenquotes_returns (is_today : bool) (e e' : E) (resp : Response)
    (q : Quote) :
  session_get (endpoint is_today) API_TIMEOUT e = (Return resp, e') →
  outcome (fetch_zenquotes is_today e) = Return q →
  ∃ d rest,
    status resp = 200
    ∧ json_loads (body resp) = Some (PyList (PyDict d :: rest))
    ∧ q_text q = text_of_field (default PyNone (d !! "q"))
    ∧ q_author q = author_of_field (default PyNone (d !! "a")).
Proof.
  intros Hg. unfold fetch_zenquotes. fold (endpoint is_today).
  unfold_m. rewrite (get_eq _ _ _ _ _ Hg). unfold outcome.
  destruct (Z.eqb_spec (status resp) 200) as [Hs|Hs]; simpl; [|done].
  destruct (json_loads (body resp)) as [data|]; [|done].
  destruct data as [| | | | |[|item l]|]; try done.
  destruct item as [| | | | | |d]; try done. simpl.
  destruct (py_strip (py_or (default PyNone (d !! "q")) (PyStr ""))) as [t|x] eqn:Ht;
    simpl; [|done].
  destruct (py_strip (py_or (default PyNone (d !! "a")) (PyStr "Unknown")))
    as [au|x] eqn:Ha; simpl; [|done].
  intros [= <-]. exists d, l. simpl.
  split; [done|]. split; [done|].
  split; [by apply strip_or_text | by apply strip_or_author].
Qed.

(** The fetch fails with a 502 exactly on the three kinds of bad
    reply. *)
Lemma fetch_zenquotes_502 (is_today : bool) (e e' : E) (resp : Response) :
  session_get (endpoint is_today) API_TIMEOUT e = (Return resp, e') →
  (∃ detail, outcome (fetch_zenquotes is_today e) = Raise (HTTPException 502 detail))
  ↔ bad_reply resp.
Proof.
  intros Hg. unfold fetch_zenquotes, bad_reply. fold (endpoint is_today).
  unfold_m. rewrite (get_eq _ _ _ _ _ Hg). unfold outcome.
  destruct (Z.eqb_spec (status resp) 200) as [Hs|Hs]; simpl;
    [|split; [by left | by eexists]].
  destruct (json_loads (body resp)) as [data|];
    [|split; [by right; left | by eexists]].
  assert (Hbad : ∀ data', (∀ l, data' ≠ PyList l) ∨ data' = PyList [] →
    (∃ detail, Raise (A:=Quote) (HTTPException 502 "Unexpected ZenQuotes payload")
               = Raise (HTTPException 502 detail))
    ↔ status resp ≠ 200 ∨ Some data' = None
      ∨ ∃ data0, Some data' = Some data0
                 ∧ ((∀ l, data0 ≠ PyList l) ∨ data0 = PyList [])).
  { intros data' Hd. split; [|by eexists]. intros _. right; right. by exists data'. }
  destruct data as [| | | | |[|item l]|];
    try (apply Hbad; by left); try (apply Hbad; by right).
  split.
  - intros [detail Hx]. exfalso.
    destruct (py_get item "q") as [q|x] eqn:Hq; simpl in Hx;
      [|injection Hx as ->; by apply py_get_not_http in Hq].
    destruct (py_strip (py_or q (PyStr ""))) as [t|x] eqn:Ht; simpl in Hx;
      [|injection Hx as ->; by apply py_strip_not_http in Ht].
    destruct (py_get item "a") as [a|x] eqn:Ha; simpl in Hx;
      [|injection Hx as ->; by apply py_get_not_http in Ha].
    destruct (py_strip (py_or a (PyStr "Unknown"))) as [au|x] eqn:Hau; simpl in Hx;
      [done|injection Hx as ->; by apply py_strip_not_http in Hau].
  - intros [Hs'|[Hn|(data0 & Hd0 & [Hl|Hl])]]; [done|done| |].
    + injection Hd0 as <-. by destruct (Hl (item :: l)).
    + by simplify_eq.
Qed.

Lemma get_quote_miss_cases (date : string) (dt today : DateTime) (e e1 e2 e3 : E)
    (ro : Outcome (gmap string string)) (r : Outcome Response) :
  fromisoformat date = Some dt →
  redis_hgetall (rkey date) e = (ro, e1) →
  ¬ cache_hit ro →
  datetime_now e1 = (today, e2) →
  session_get (endpoint (bool_decide (date_of dt = date_of today))) API_TIMEOUT e2 = (r, e3) →
  let b := bool_decide (date_of dt = date_of today) in
  (∃ x, fetch_zenquotes b e2 = (Raise x, e3, [EvGet (endpoint b)])
        ∧ get_quote date e = (Raise x, e3, miss_events_raised date ro (endpoint b)))
  ∨ (∃ q t2 e4 wo e5,
        fetch_zenquotes b e2 = (Return q, e3, [EvGet (endpoint b)])
        ∧ datetime_now e3 = (t2, e4)
        ∧ redis_hset (rkey date) (stored_fields q t2) e4 = (wo, e5)
        ∧ get_quote date e
          = (Return (fresh_record date q t2), e5,
             miss_events_returned date ro (endpoint b) q t2 wo)).
Proof.
  intros Hd Hr Hmiss Hn Hg b.
  destruct (fetch_zenquotes_get _ _ _ _ Hg) as (fo & Hf & _).
  destruct fo as [q|x].
  - right. destruct (datetime_now e3) as [t2 e4] eqn:Hn2.
    destruct (redis_hset (rkey date) (stored_fields q t2) e4) as [wo e5] eqn:Hw.
    exists q, t2, e4, wo, e5.
    split; [done|]. split; [done|]. split; [done|].
    rewrite (get_quote_miss_fetch_returns _ _ _ _ _ _ _ _ _ _ _ _ _ _
               Hd Hr Hmiss Hn Hf Hn2 Hw).
    reflexivity.
  - left. exists x. split; [done|].
    by rewrite (get_quote_miss_fetch_raises _ _ _ _ _ _ _ _ _ _ Hd Hr Hmiss Hn Hf).
Qed.

#[global] Instance cache_hit_dec (ro : Outcome (gmap string string)) :
  Decision (cache_hit ro).
Proof.
  destruct ro as [m|x].
  - destruct (decide (hit_worthy m)) as [H|H].
    + left. by exists m.
    + right. intros (m' & [= <-] & H'). done.
  - right. by intros (m' & [=] & _).
Defined.

(** Every run of the handler is of one of four kinds. *)
Lemma get_quote_cases (date : string) (e : E) :
  (∃ x, get_quote date e = (Raise x, e, []))
  ∨ (∃ m t a e1, get_quote date e
       = (Return (cached_record date m t a), e1, [EvHgetall (rkey date)]))
  ∨ (∃ ro url x e3, get_quote date e = (Raise x, e3, miss_events_raised date ro url))
  ∨ (∃ ro url q t2 wo e5, get_quote date e
       = (Return (fresh_record date q t2), e5,
          miss_events_returned date ro url q t2 wo)).
Proof.
  destruct (fromisoformat date) as [dt|] eqn:Hd.
  - right. destruct (redis_hgetall (rkey date) e) as [ro e1] eqn:Hr.
    destruct (decide (cache_hit ro)) as [Hhit|Hmiss].
    + left. destruct Hhit as (m & -> & t & a & Ht & Hnt & Ha & Hna).
      exists m, t, a, e1. by eapply get_quote_hit.
    + right. destruct (datetime_now e1) as [today e2] eqn:Hn.
      destruct (session_get (endpoint (bool_decide (date_of dt = date_of today))) API_TIMEOUT e2)
        as [r e3] eqn:Hg.
      destruct (get_quote_miss_cases _ _ _ _ _ _ _ _ _ Hd Hr Hmiss Hn Hg)
        as [(x & _ & H)|(q & t2 & e4 & wo & e5 & _ & _ & _ & H)];
        [left|right]; eauto 10.
  - left. rewrite (get_quote_bad_date _ _ Hd). by eexists.
Qed.

Lemma get_quote_reads_rkey (date key : string) (e : E) :
  EvHgetall key ∈ events (get_quote date e) → key = rkey date.
Proof.
  destruct (get_quote_cases date e)
    as [(x & H)|[(m & t & a & e1 & H)|[(ro & url & x & e3 & H)
       |(ro & url & q & t2 & wo & e5 & H)]]];
    rewrite H; unfold events, miss_events_raised, miss_events_returned; simpl;
    try destruct ro; try destruct wo; simpl; intros Hin;
    repeat (apply elem_of_cons in Hin as [Hin|Hin]; [try discriminate|]);
    try (by apply elem_of_nil in Hin);
    by simplify_eq.
Qed.

Lemma get_quote_writes (date key : string) (v : gmap string string) (e : E) :
  EvHset key v ∈ events (get_quote date e) →
  key = rkey date ∧ ∃ q t, v = stored_fields q t.
Proof.
  destruct (get_quote_cases date e)
    as [(x & H)|[(m & t & a & e1 & H)|[(ro & url & x & e3 & H)
       |(ro & url & q & t2 & wo & e5 & H)]]];
    rewrite H; unfold events, miss_events_raised, miss_events_returned; simpl;
    try destruct ro; try destruct wo; simpl; intros Hin;
    repeat (apply elem_of_cons in Hin as [Hin|Hin]; [try discriminate|]);
    try (by apply elem_of_nil in Hin);
    simplify_eq; eauto.
Qed.

Lemma stored_fields_dom (q : Quote) (t : DateTime) :
  dom (stored_fields q t) = ({["text"; "author"; "source"; "stored_at"]} : gset string).
Proof.
  unfold stored_fields. rewrite !dom_insert_L, dom_empty_L. set_solver.
Qed.

(** On the miss path exactly one request goes upstream, to the
    endpoint chosen from the two dates. *)
Lemma get_quote_miss_gets (date : string) (dt today : DateTime) (e e1 e2 : E)
    (ro : Outcome (gmap string string)) (url : string) :
  fromisoformat date = Some dt →
  redis_hgetall (rkey date) e = (ro, e1) →
  ¬ cache_hit ro →
  datetime_now e1 = (today, e2) →
  EvGet url ∈ events (get_quote date e)
  ↔ url = endpoint (bool_decide (date_of dt = date_of today)).
Proof.
  intros Hd Hr Hmiss Hn.
  destruct (session_get (endpoint (bool_decide (date_of dt = date_of today))) API_TIMEOUT e2)
    as [r e3] eqn:Hg.
  destruct (get_quote_miss_cases _ _ _ _ _ _ _ _ _ Hd Hr Hmiss Hn Hg)
    as [(x & _ & H)|(q & t2 & e4 & wo & e5 & _ & _ & _ & H)];
    rewrite H; unfold events, miss_events_raised, miss_events_returned; simpl;
    destruct ro; try destruct wo; simpl;
    (split;
     [ intros Hin;
       repeat (apply elem_of_cons in Hin as [Hin|Hin]; [try discriminate|]);
       try (by apply elem_of_nil in Hin); by simplify_eq
     | intros ->; rewrite !elem_of_cons; tauto ]).
Qed.

Lemma strip_or_text_returns (o : option PyVal) :
  is_text o → ∃ t, py_strip (py_or (default PyNone o) (PyStr "")) = Return t.
Proof.
  intros [->|[->|[s ->]]]; simpl; unfold py_or; simpl; try by eexists.
  destruct s; simpl; by eexists.
Qed.

Lemma strip_or_author_returns (o : option PyVal) :
  is_text o → ∃ t, py_strip (py_or (default PyNone o) (PyStr "Unknown")) = Return t.
Proof.
  intros [->|[->|[s ->]]]; simpl; unfold py_or; simpl; try by eexists.
  destruct s; simpl; by eexists.
Qed.

(** A 200 reply with a dict of texts in front is never refused. *)
Lemma fetch_zenquotes_accepts (is_today : bool) (e e' : E) (resp : Response)
    (d : gmap string PyVal) (rest : list PyVal) :
  session_get (endpoint is_today) API_TIMEOUT e = (Return resp, e') →
  status resp = 200 →
  json_loads (body resp) = Some (PyList (PyDict d :: rest)) →
  is_text (d !! "q") → is_text (d !! "a") →
  ∃ q, fetch_zenquotes is_today e = (Return q, e', [EvGet (endpoint is_today)]).
Proof.
  intros Hg Hs Hj Hq Ha. unfold fetch_zenquotes. fold (endpoint is_today).
  unfold_m. rewrite (get_eq _ _ _ _ _ Hg), Hs, Hj. simpl.
  destruct (strip_or_text_returns _ Hq) as [t ->].
  destruct (strip_or_author_returns _ Ha) as [a ->]. simpl. by eexists.
Qed.

(** ** The claims *)

(** C1.  For a well-formed date, the request is served from the cache
    exactly when the read returns a hash whose [text] and [author]
    are both non-empty.  Then the record is built from the cached
    fields ([source] falls back to ["zenquotes"], [stored_at] is the
    cached one if any), the read is the only outside call (no request
    upstream, no write) and the world is as the read left it.
    Otherwise (a field empty or missing, in particular [text] equal
    to the empty string, or the read raised) a request goes
    upstream. *)
Theorem cache_served_iff_hit_worthy (date : string) (dt : DateTime) (e e1 : E)
    (ro : Outcome (gmap string string)) :
  fromisoformat date = Some dt →
  redis_hgetall (rkey date) e = (ro, e1) →
  (cache_hit ro ↔ ¬ ∃ url, EvGet url ∈ events (get_quote date e))
  ∧ (∀ m t a, ro = Return m →
       m !! "text" = Some t → t ≠ "" → m !! "author" = Some a → a ≠ "" →
       get_quote date e
       = (Return {| qr_date := date; qr_text := t; qr_author := a;
                    qr_source := default "zenquotes" (m !! "source");
                    qr_stored_at := m !! "stored_at" |},
          e1, [EvHgetall (rkey date)]))
  ∧ (∀ m, ro = Return m →
       m !! "text" = None ∨ m !! "text" = Some ""
       ∨ m !! "author" = None ∨ m !! "author" = Some "" →
       ∃ url, EvGet url ∈ events (get_quote date e)).
Proof.
  intros Hd Hr.
  assert (Hmiss_get : ¬ cache_hit ro → ∃ url, EvGet url ∈ events (get_quote date e)).
  { intros Hmiss. destruct (datetime_now e1) as [today e2] eqn:Hn.
    eexists. by apply (get_quote_miss_gets _ _ _ _ _ _ _ _ Hd Hr Hmiss Hn). }
  split; [|split].
  - split.
    + intros (m & -> & t & a & Ht & Hnt & Ha & Hna) [url Hin].
      rewrite (get_quote_hit _ _ _ _ _ _ _ Hd Hr Ht Hnt Ha Hna) in Hin.
      unfold events in Hin. simpl in Hin.
      apply elem_of_cons in Hin as [Hin|Hin]; [done|]. by apply elem_of_nil in Hin.
    + intros Hno. destruct (decide (cache_hit ro)) as [?|Hmiss]; [done|].
      destruct Hno. by apply Hmiss_get.
  - intros m t a -> Ht Hnt Ha Hna. by eapply get_quote_hit.
  - intros m -> Hbad. apply Hmiss_get.
    intros (m' & [= <-] & t & a & Ht & Hnt & Ha & Hna).
    destruct Hbad as [H|[H|[H|H]]]; congruence.
Qed.

(** C2.  For a well-formed date, a failing cache never fails the
    request.  When the read did not serve it (in particular when it
    raised), the request goes upstream, and the result is the
    upstream's: its exception if the fetch raised, and otherwise the
    record built from the fetched quote, whatever the write did
    (returned or raised). *)
Theorem cache_failures_are_absorbed (date : string) (dt today t2 : DateTime)
    (e e1 e2 e3 e4 : E) (ro : Outcome (gmap string string)) (fo : Outcome Quote)
    (tf : list Event) :
  fromisoformat date = Some dt →
  redis_hgetall (rkey date) e = (ro, e1) →
  ¬ cache_hit ro →
  datetime_now e1 = (today, e2) →
  fetch_zenquotes (bool_decide (date_of dt = date_of today)) e2 = (fo, e3, tf) →
  datetime_now e3 = (t2, e4) →
  (∃ url, EvGet url ∈ events (get_quote date e))
  ∧ (∀ x, fo = Raise x → outcome (get_quote date e) = Raise x)
  ∧ (∀ q wo e5, fo = Return q →
       redis_hset (rkey date) (stored_fields q t2) e4 = (wo, e5) →
       outcome (get_quote date e)
       = Return {| qr_date := date; qr_text := q_text q; qr_author := q_author q;
                   qr_source := "zenquotes"; qr_stored_at := Some (isoformat t2) |}
       ∧ events (get_quote date e)
         = EvHgetall (rkey date) :: read_log ro ++ EvNow :: tf
             ++ [EvNow; EvHset (rkey date) (stored_fields q t2)] ++ write_log wo).
Proof.
  intros Hd Hr Hmiss Hn Hf Hn2. split; [|split].
  - eexists. by apply (get_quote_miss_gets _ _ _ _ _ _ _ _ Hd Hr Hmiss Hn).
  - intros x ->.
    by rewrite (get_quote_miss_fetch_raises _ _ _ _ _ _ _ _ _ _ Hd Hr Hmiss Hn Hf).
  - intros q wo e5 -> Hw.
    by rewrite (get_quote_miss_fetch_returns _ _ _ _ _ _ _ _ _ _ _ _ _ _
                  Hd Hr Hmiss Hn Hf Hn2 Hw).
Qed.

(** C3.  A date the parser refuses fails the request with the 400
    [HTTPException] at once: no outside call is made (no cache call,
    no request upstream) and the world is untouched. *)
Theorem invalid_date_fails_fast (date : string) (e : E) :
  fromisoformat date = None →
  get_quote date e
  = (Raise (HTTPException 400 "Invalid date format, use YYYY-MM-DD"), e, [])
  ∧ status_of (outcome (get_quote date e)) = 400.
Proof.
  intros Hd. by rewrite (get_quote_bad_date _ _ Hd).
Qed.

(** C4, as amended.  On a miss, when the upstream replied, every
    record the handler returns is read off the first item of the
    reply: the date is the string asked for, the text is the item's
    [q] trimmed (empty when [q] is absent, [null] or empty), the
    author is the item's [a] trimmed when it is a non-empty string
    and ["Unknown"] when it is absent, [null] or the empty string,
    the source is ["zenquotes"], and [stored_at] is the ISO form of
    the clock read after the fetch.  And a record is returned
    whenever the reply is a 200 whose body parses to an array with
    such an item in front. *)
Theorem fetched_record_fields (date : string) (dt today : DateTime)
    (e e1 e2 e3 : E) (ro : Outcome (gmap string string)) (resp : Response) :
  fromisoformat date = Some dt →
  redis_hgetall (rkey date) e = (ro, e1) →
  ¬ cache_hit ro →
  datetime_now e1 = (today, e2) →
  session_get (endpoint (bool_decide (date_of dt = date_of today))) API_TIMEOUT e2
    = (Return resp, e3) →
  (∀ r, outcome (get_quote date e) = Return r →
     ∃ d rest,
       json_loads (body resp) = Some (PyList (PyDict d :: rest))
       ∧ qr_date r = date
       ∧ qr_text r = text_of_field (default PyNone (d !! "q"))
       ∧ qr_author r = author_of_field (default PyNone (d !! "a"))
       ∧ qr_source r = "zenquotes"
       ∧ qr_stored_at r = Some (isoformat (datetime_now e3).1))
  ∧ (∀ d rest,
       status resp = 200 →
       json_loads (body resp) = Some (PyList (PyDict d :: rest)) →
       is_text (d !! "q") → is_text (d !! "a") →
       ∃ r, outcome (get_quote date e) = Return r).
Proof.
  intros Hd Hr Hmiss Hn Hg.
  destruct (get_quote_miss_cases _ _ _ _ _ _ _ _ _ Hd Hr Hmiss Hn Hg)
    as [(x & Hf & H)|(q & t2 & e4 & wo & e5 & Hf & Hn2 & Hw & H)].
  - split.
    + intros r. by rewrite H.
    + intros d rest Hs Hj Hq Ha.
      destruct (fetch_zenquotes_accepts _ _ _ _ _ _ Hg Hs Hj Hq Ha) as [q Hq'].
      congruence.
  - split.
    + intros r. rewrite H. unfold outcome. simpl. intros [= <-].
      assert (Hout : outcome (fetch_zenquotes
                (bool_decide (date_of dt = date_of today)) e2) = Return q)
        by (by rewrite Hf).
      destruct (fetch_zenquotes_returns _ _ _ _ _ Hg Hout)
        as (d & rest & Hs & Hj & Hqt & Hqa).
      exists d, rest. rewrite Hn2. simpl. by rewrite Hqt, Hqa.
    + intros. rewrite H. by eexists.
Qed.

(** C5.  On a miss the endpoint is chosen by comparing the date part
    of the parsed request date with the date part of the UTC clock
    reading: the request goes to the "today" endpoint when they are
    equal and to the "random" endpoint otherwise, and to no other
    address. *)
Theorem endpoint_follows_utc_date (date : string) (dt today : DateTime)
    (e e1 e2 : E) (ro : Outcome (gmap string string)) :
  fromisoformat date = Some dt →
  redis_hgetall (rkey date) e = (ro, e1) →
  ¬ cache_hit ro →
  datetime_now e1 = (today, e2) →
  (date_of dt = date_of today →
     ∀ url, EvGet url ∈ events (get_quote date e)
            ↔ url = "https://zenquotes.io/api/today")
  ∧ (date_of dt ≠ date_of today →
     ∀ url, EvGet url ∈ events (get_quote date e)
            ↔ url = "https://zenquotes.io/api/random").
Proof.
  intros Hd Hr Hmiss Hn.
  split; intros Hdate url;
    rewrite (get_quote_miss_gets _ _ _ _ _ _ _ url Hd Hr Hmiss Hn).
  - by rewrite bool_decide_eq_true_2.
  - by rewrite bool_decide_eq_false_2.
Qed.

(** C6, as amended.  On a miss, when the upstream replied, the
    request fails with the 502 [HTTPException] exactly when the
    status is not 200, or the body does not parse as JSON, or it
    parses to something that is not a non-empty array.  In those
    cases the status sent is 502, no record is returned and nothing
    is written to the cache. *)
Theorem upstream_error_iff_bad_reply (date : string) (dt today : DateTime)
    (e e1 e2 e3 : E) (ro : Outcome (gmap string string)) (resp : Response) :
  fromisoformat date = Some dt →
  redis_hgetall (rkey date) e = (ro, e1) →
  ¬ cache_hit ro →
  datetime_now e1 = (today, e2) →
  session_get (endpoint (bool_decide (date_of dt = date_of today))) API_TIMEOUT e2
    = (Return resp, e3) →
  ((∃ detail, outcome (get_quote date e) = Raise (HTTPException 502 detail))
   ↔ (status resp ≠ 200
      ∨ json_loads (body resp) = None
      ∨ ∃ data, json_loads (body resp) = Some data
                ∧ ((∀ l, data ≠ PyList l) ∨ data = PyList [])))
  ∧ (bad_reply resp →
       status_of (outcome (get_quote date e)) = 502
       ∧ (∀ r, outcome (get_quote date e) ≠ Return r)
       ∧ (∀ key v, EvHset key v ∉ events (get_quote date e))).
Proof.
  intros Hd Hr Hmiss Hn Hg.
  pose proof (fetch_zenquotes_502 _ _ _ _ Hg) as H502.
  destruct (get_quote_miss_cases _ _ _ _ _ _ _ _ _ Hd Hr Hmiss Hn Hg)
    as [(x & Hf & H)|(q & t2 & e4 & wo & e5 & Hf & Hn2 & Hw & H)];
    rewrite Hf in H502; unfold outcome in H502; simpl in H502.
  - rewrite H. unfold outcome, events. simpl.
    split; [etrans; [|exact H502]; split; intros [detail [= ->]]; by exists detail|].
    intros Hbad. apply H502 in Hbad as [detail [= ->]]. simpl.
    split; [done|]. split; [done|].
    intros key v Hin. unfold miss_events_raised in Hin.
    destruct ro; simpl in Hin;
      repeat (apply elem_of_cons in Hin as [Hin|Hin]; [discriminate|]);
      by apply elem_of_nil in Hin.
  - rewrite H. unfold outcome. simpl. split.
    + etrans; [|exact H502]. split; by intros [? ?].
    + intros Hbad. by apply H502 in Hbad as [detail ?].
Qed.

(** C7.  The storage key is the fixed prefix followed by the date
    string exactly as given; distinct strings give distinct keys; and
    every cache read and every cache write of the handler uses that
    key. *)
Theorem storage_key_is_prefixed_literal :
  (∀ date, rkey date = "quote:" +:+ date)
  ∧ (∀ d1 d2, d1 ≠ d2 → rkey d1 ≠ rkey d2)
  ∧ (∀ date (e : E) key,
       EvHgetall key ∈ events (get_quote date e) → key = rkey date)
  ∧ (∀ date (e : E) key v,
       EvHset key v ∈ events (get_quote date e) → key = rkey date).
Proof.
  split; [done|]. split; [|split].
  - intros d1 d2 Hne Hk. by apply Hne, rkey_inj.
  - intros date e key. apply get_quote_reads_rkey.
  - intros date e key v Hin. by apply get_quote_writes in Hin as [? _].
Qed.

(** C9.  The health probe reads the clock, writes the probe hash and
    reads it back.  It answers [{ok: true}] with status 200 exactly
    when the write returned and the read returned a hash whose [ok]
    field is ["1"]; when the write raised, or the write returned and
    the read raised, it answers status 500 with
    [{ok: false, error: str(e)}]. *)
Theorem health_probe_reply (e e1 e2 e3 : E) (t : DateTime) (wo : Outcome Z)
    (ro : Outcome (gmap string string)) :
  datetime_now e = (t, e1) →
  redis_hset "qotd:health" (<["ok" := "1"]> (<["ts" := isoformat t]> ∅)) e1 = (wo, e2) →
  redis_hgetall "qotd:health" e2 = (ro, e3) →
  (outcome (health e) = Return (HealthDict true)
   ↔ ∃ n m, wo = Return n ∧ ro = Return m ∧ m !! "ok" = Some "1")
  ∧ health_status (HealthDict true) = 200
  ∧ (∀ x, wo = Raise x →
       outcome (health e) = Return (JSONResponse 500 false (exc_str x)))
  ∧ (∀ n x, wo = Return n → ro = Raise x →
       outcome (health e) = Return (JSONResponse 500 false (exc_str x)))
  ∧ (∀ msg, health_status (JSONResponse 500 false msg) = 500).
Proof.
  intros Hn Hw Hr. unfold health. unfold_m.
  rewrite (now_eq _ _ _ Hn). simpl. rewrite (hset_eq _ _ _ _ _ Hw).
  destruct wo as [n|x]; simpl.
  - rewrite (hgetall_eq _ _ _ _ Hr). destruct ro as [m|x]; simpl.
    + unfold outcome. simpl. split; [|split; [done|split; [done|split; done]]].
      split.
      * intros [= Hb]. apply bool_decide_eq_true_1 in Hb. by exists n, m.
      * intros (n' & m' & [= <-] & [= <-] & Hok). by rewrite bool_decide_eq_true_2.
    + unfold outcome. simpl. split; [|split; [done|split; [done|split]]].
      * split; [done|]. by intros (n' & m' & _ & [=] & _).
      * by intros n' y _ [= <-].
      * done.
  - unfold outcome. simpl. split; [|split; [done|split; [|split; done]]].
    + split; [done|]. by intros (n' & m' & [=] & _).
    + by intros y [= <-].
Qed.

(** C10.  Every cache write of the handler stores exactly the four
    fields [text], [author], [source] and [stored_at], so no [date]
    field is written; and the date of every record returned, served
    from the cache or fetched, is the request string itself. *)
Theorem writes_four_fields_and_echoes_date (date : string) (e : E) :
  (∀ key v, EvHset key v ∈ events (get_quote date e) →
     dom v = ({["text"; "author"; "source"; "stored_at"]} : gset string)
     ∧ v !! "date" = None)
  ∧ (∀ r, outcome (get_quote date e) = Return r → qr_date r = date).
Proof.
  split.
  - intros key v Hin. apply get_quote_writes in Hin as (_ & q & t & ->).
    split; [apply stored_fields_dom|].
    unfold stored_fields. by rewrite !lookup_insert_ne, lookup_empty.
  - intros r.
    destruct (get_quote_cases date e)
      as [(x & H)|[(m & t & a & e1 & H)|[(ro & url & x & e3 & H)
         |(ro & url & q & t2 & wo & e5 & H)]]];
      rewrite H; unfold outcome; simpl; try done; by intros [= <-].
Qed.

End Properties.

(** ** The simulated world *)

Section Simulated.
Variable loads : string → option PyVal.

Lemma sim_hgetall_stored (date : string) (m : gmap string string) (s : Sim) :
  store s !! rkey date = Some m →
  redis_fault s (redis_calls s) = None →
  sim_hgetall (rkey date) s = (Return m, sim_redis_tick s (store s)).
Proof. intros Hs Hf. unfold sim_hgetall. by rewrite Hf, Hs. Qed.

(** C8.  With the cache holding, under the key of a well-formed
    date, a hash whose [text] and [author] are non-empty, and Redis
    answering the two reads, two requests for that date in a row
    return the same record, built from the hash; the store is the
    same after each; the only outside calls are the two reads, so the
    upstream is never called. *)
Theorem hit_path_is_idempotent (date : string) (dt : DateTime)
    (m : gmap string string) (t a : string) (s : Sim) :
  fromisoformat_date date = Some dt →
  store s !! rkey date = Some m →
  m !! "text" = Some t → t ≠ "" →
  m !! "author" = Some a → a ≠ "" →
  redis_fault s (redis_calls s) = None →
  redis_fault s (S (redis_calls s)) = None →
  ∃ s1 s2 r,
    sim_get_quote loads date s = (Return r, s1, [EvHgetall (rkey date)])
    ∧ sim_get_quote loads date s1 = (Return r, s2, [EvHgetall (rkey date)])
    ∧ r = {| qr_date := date; qr_text := t; qr_author := a;
             qr_source := default "zenquotes" (m !! "source");
             qr_stored_at := m !! "stored_at" |}
    ∧ store s1 = store s ∧ store s2 = store s
    ∧ upstream_calls s2 = upstream_calls s.
Proof.
  intros Hd Hs Ht Hnt Ha Hna Hf1 Hf2.
  exists (sim_redis_tick s (store s)),
         (sim_redis_tick (sim_redis_tick s (store s)) (store s)),
         (cached_record date m t a).
  split; [|split; [|done]].
  - apply (get_quote_hit (Runtime0 := sim_runtime loads) date dt s _ m t a);
      try done.
    by apply sim_hgetall_stored.
  - apply (get_quote_hit (Runtime0 := sim_runtime loads) date dt _ _ m t a);
      try done.
    by apply (sim_hgetall_stored date m (sim_redis_tick s (store s))).
Qed.

End Simulated.

(** ** The claims on concrete requests *)

(** The cached entry of the example is served as it is: one read, no
    other call.  An entry whose text is the empty string is not: the
    request goes upstream. *)
Lemma cache_served_iff_hit_worthy_witness :
  fromisoformat_date "2024-01-01" = Some (at_time 2024 1 1 0 0 0 0)
  ∧ sim_get_quote (loads_as horace) "2024-01-01" (sim_world kind_store no_faults ok_reply)
    = (Return {| qr_date := "2024-01-01"; qr_text := "Be kind."; qr_author := "Anon";
                 qr_source := "zenquotes"; qr_stored_at := None |},
       sim_redis_tick (sim_world kind_store no_faults ok_reply) kind_store,
       [EvHgetall "quote:2024-01-01"])
  ∧ ∃ url, EvGet url
           ∈ events (sim_get_quote (loads_as horace) "2024-01-01"
                       (sim_world empty_text_store no_faults ok_reply)).
Proof.
  split; [reflexivity|]. split.
  - apply (proj1 (proj2
      (@cache_served_iff_hit_worthy Sim (sim_runtime (loads_as horace))
         "2024-01-01" (at_time 2024 1 1 0 0 0 0)
         (sim_world kind_store no_faults ok_reply)
         (sim_redis_tick (sim_world kind_store no_faults ok_reply) kind_store)
         (Return kind_entry) eq_refl eq_refl))
      kind_entry "Be kind." "Anon" eq_refl).
    + reflexivity.
    + discriminate.
    + reflexivity.
    + discriminate.
  - apply (proj2 (proj2
      (@cache_served_iff_hit_worthy Sim (sim_runtime (loads_as horace))
         "2024-01-01" (at_time 2024 1 1 0 0 0 0)
         (sim_world empty_text_store no_faults ok_reply)
         (sim_redis_tick (sim_world empty_text_store no_faults ok_reply)
            empty_text_store)
         (Return empty_text_entry) eq_refl eq_refl))
      empty_text_entry eq_refl).
    right; left. reflexivity.
Defined.

(** Redis refuses every call; the quote of the upstream is returned all
    the same, and both failures are printed. *)
Lemma cache_failures_are_absorbed_witness :
  let run := sim_get_quote (loads_as horace) "2024-01-02"
               (sim_world ∅ all_faults ok_reply) in
  outcome run
  = Return {| qr_date := "2024-01-02"; qr_text := "Carpe diem"; qr_author := "Horace";
              qr_source := "zenquotes";
              qr_stored_at := Some "2024-01-01T12:30:05.000250+00:00" |}
  ∧ events run
    = [EvHgetall "quote:2024-01-02";
       EvPrint "Redis HGETALL error: connection refused";
       EvNow; EvGet "https://zenquotes.io/api/random"; EvNow;
       EvHset "quote:2024-01-02"
         (stored_fields {| q_text := "Carpe diem"; q_author := "Horace" |}
            (at_time 2024 1 1 12 30 5 250));
       EvPrint "Redis HSET error: connection refused"].
Proof.
  edestruct (@cache_failures_are_absorbed Sim (sim_runtime (loads_as horace)))
    with (date := "2024-01-02") (e := sim_world ∅ all_faults ok_reply)
    as (_ & _ & Hret).
  - reflexivity.
  - reflexivity.
  - intros (m & Hm & _). discriminate Hm.
  - reflexivity.
  - reflexivity.
  - reflexivity.
  - exact (Hret _ _ _ eq_refl eq_refl).
Defined.

(** Two strings the date parser refuses. *)
Lemma invalid_date_fails_fast_witness :
  fromisoformat_date "not-a-date" = None
  ∧ fromisoformat_date "" = None
  ∧ sim_get_quote (loads_as horace) "not-a-date" (sim_world kind_store no_faults ok_reply)
    = (Raise (HTTPException 400 "Invalid date format, use YYYY-MM-DD"),
       sim_world kind_store no_faults ok_reply, [])
  ∧ sim_get_quote (loads_as horace) "" (sim_world kind_store no_faults ok_reply)
    = (Raise (HTTPException 400 "Invalid date format, use YYYY-MM-DD"),
       sim_world kind_store no_faults ok_reply, []).
Proof.
  split; [reflexivity|]. split; [reflexivity|]. split.
  - apply (@invalid_date_fails_fast Sim (sim_runtime (loads_as horace)) "not-a-date").
    reflexivity.
  - apply (@invalid_date_fails_fast Sim (sim_runtime (loads_as horace)) "").
    reflexivity.
Defined.

(** A reply whose quote has spaces around it and whose author is
    [null]: the text is trimmed and the author defaulted. *)
Lemma fetched_record_fields_witness :
  let run := sim_get_quote (loads_as (one_quote (PyStr "  Carpe diem ") PyNone))
               "2024-01-01" (sim_world ∅ no_faults ok_reply) in
  ∃ r, outcome run = Return r
       ∧ qr_date r = "2024-01-01"
       ∧ qr_text r = "Carpe diem"
       ∧ qr_author r = "Unknown"
       ∧ qr_source r = "zenquotes"
       ∧ qr_stored_at r = Some "2024-01-01T12:30:05.000250+00:00".
Proof.
  edestruct (@fetched_record_fields Sim
               (sim_runtime (loads_as (one_quote (PyStr "  Carpe diem ") PyNone))))
    with (date := "2024-01-01") (e := sim_world ∅ no_faults ok_reply)
    as (Hfields & Hreturns).
  - reflexivity.
  - reflexivity.
  - intros (m & [= <-] & t & a & Ht & _). discriminate Ht.
  - reflexivity.
  - reflexivity.
  - destruct (Hreturns _ [] eq_refl eq_refl) as [r Hr].
    + right; right. by eexists.
    + right; left. reflexivity.
    + exists r. split; [exact Hr|].
      destruct (Hfields r Hr) as (d & rest & Hj & Hdate & Htext & Hauthor & Hsrc & Hat).
      injection Hj as <- <-.
      split; [exact Hdate|]. split; [exact Htext|]. split; [exact Hauthor|].
      split; [exact Hsrc|exact Hat].
Defined.

(** C4, the claim as stated fails: the author field of the reply is
    blank (one space, which trimming leaves empty), a record is
    returned, and its author is the empty string, not ["Unknown"]. *)
Lemma whitespace_author_is_not_defaulted :
  let run := sim_get_quote (loads_as (one_quote (PyStr "Be kind.") (PyStr " ")))
               "2024-01-01" (sim_world ∅ no_faults ok_reply) in
  strip " " = ""
  ∧ outcome run
    = Return {| qr_date := "2024-01-01"; qr_text := "Be kind."; qr_author := "";
                qr_source := "zenquotes";
                qr_stored_at := Some "2024-01-01T12:30:05.000250+00:00" |}
  ∧ (∀ r, outcome run = Return r → qr_author r ≠ "Unknown").
Proof.
  split; [reflexivity|]. split; [reflexivity|].
  intros r [= <-]. discriminate.
Qed.

(** A request for the day of the clock goes to the "today" endpoint, a
    request for the day before to the "random" one. *)
Lemma endpoint_follows_utc_date_witness :
  EvGet "https://zenquotes.io/api/today"
    ∈ events (sim_get_quote (loads_as horace) "2024-01-01"
                (sim_world ∅ no_faults ok_reply))
  ∧ EvGet "https://zenquotes.io/api/random"
    ∈ events (sim_get_quote (loads_as horace) "2023-12-31"
                (sim_world ∅ no_faults ok_reply)).
Proof.
  split.
  - edestruct (@endpoint_follows_utc_date Sim (sim_runtime (loads_as horace)))
      with (date := "2024-01-01") (e := sim_world ∅ no_faults ok_reply)
      as (Htoday & _).
    + reflexivity.
    + reflexivity.
    + intros (m & [= <-] & t & a & Ht & _). discriminate Ht.
    + reflexivity.
    + apply (Htoday eq_refl). reflexivity.
  - edestruct (@endpoint_follows_utc_date Sim (sim_runtime (loads_as horace)))
      with (date := "2023-12-31") (e := sim_world ∅ no_faults ok_reply)
      as (_ & Hrandom).
    + reflexivity.
    + reflexivity.
    + intros (m & [= <-] & t & a & Ht & _). discriminate Ht.
    + reflexivity.
    + apply Hrandom; [discriminate | reflexivity].
Defined.

(** The three refusals of the design document: a 500 from the
    upstream, a body that is not JSON, and the empty array. *)
Lemma upstream_error_iff_bad_reply_witness :
  (∃ detail, outcome (sim_get_quote (loads_as horace) "2024-01-01"
                        (sim_world ∅ no_faults error_reply))
             = Raise (HTTPException 502 detail))
  ∧ (∃ detail, outcome (sim_get_quote loads_nothing "2024-01-01"
                          (sim_world ∅ no_faults ok_reply))
               = Raise (HTTPException 502 detail))
  ∧ (∃ detail, outcome (sim_get_quote (loads_as (PyList [])) "2024-01-01"
                          (sim_world ∅ no_faults ok_reply))
               = Raise (HTTPException 502 detail)).
Proof.
  split; [|split].
  - edestruct (@upstream_error_iff_bad_reply Sim (sim_runtime (loads_as horace)))
      with (date := "2024-01-01") (e := sim_world ∅ no_faults error_reply)
      as ([_ Hfails] & _).
    + reflexivity.
    + reflexivity.
    + intros (m & [= <-] & t & a & Ht & _). discriminate Ht.
    + reflexivity.
    + reflexivity.
    + apply Hfails. left. discriminate.
  - edestruct (@upstream_error_iff_bad_reply Sim (sim_runtime loads_nothing))
      with (date := "2024-01-01") (e := sim_world ∅ no_faults ok_reply)
      as ([_ Hfails] & _).
    + reflexivity.
    + reflexivity.
    + intros (m & [= <-] & t & a & Ht & _). discriminate Ht.
    + reflexivity.
    + reflexivity.
    + apply Hfails. right; left. reflexivity.
  - edestruct (@upstream_error_iff_bad_reply Sim (sim_runtime (loads_as (PyList []))))
      with (date := "2024-01-01") (e := sim_world ∅ no_faults ok_reply)
      as ([_ Hfails] & _).
    + reflexivity.
    + reflexivity.
    + intros (m & [= <-] & t & a & Ht & _). discriminate Ht.
    + reflexivity.
    + reflexivity.
    + apply Hfails. right; right. exists (PyList []).
      split; [reflexivity|]. right. reflexivity.
Defined.

(** C6, the claim as stated fails: the reply is a 200 whose body parses
    to [[null]], an array with no quote in it, so the payload is
    malformed; the request does fail, but with an [AttributeError],
    which goes out as a 500, and not with the 502 [HTTPException]. *)
Lemma headless_payload_is_not_refused :
  let run := sim_get_quote (loads_as (PyList [PyNone])) "2024-01-01"
               (sim_world ∅ no_faults ok_reply) in
  outcome run = Raise (AttributeError "'NoneType' object has no attribute 'get'")
  ∧ status_of (outcome run) = 500
  ∧ ¬ ∃ detail, outcome run = Raise (HTTPException 502 detail).
Proof.
  split; [reflexivity|]. split; [reflexivity|].
  intros [detail Hd]. discriminate Hd.
Qed.

(** The example of the design document: the entry [Be kind.] by [Anon]
    under the key of 2024-01-01, asked for twice. *)
Lemma hit_path_is_idempotent_witness :
  store (sim_world kind_store no_faults ok_reply) !! rkey "2024-01-01" = Some kind_entry
  ∧ ∃ s1 s2 r,
      sim_get_quote (loads_as horace) "2024-01-01" (sim_world kind_store no_faults ok_reply)
      = (Return r, s1, [EvHgetall "quote:2024-01-01"])
      ∧ sim_get_quote (loads_as horace) "2024-01-01" s1
        = (Return r, s2, [EvHgetall "quote:2024-01-01"])
      ∧ r = {| qr_date := "2024-01-01"; qr_text := "Be kind."; qr_author := "Anon";
               qr_source := "zenquotes"; qr_stored_at := None |}
      ∧ store s1 = kind_store ∧ store s2 = kind_store
      ∧ upstream_calls s2 = 0%nat.
Proof.
  split; [reflexivity|].
  apply (hit_path_is_idempotent (loads_as horace) "2024-01-01"
           (at_time 2024 1 1 0 0 0 0) kind_entry "Be kind." "Anon"
           (sim_world kind_store no_faults ok_reply)).
  - reflexivity.
  - reflexivity.
  - reflexivity.
  - discriminate.
  - reflexivity.
  - discriminate.
  - reflexivity.
  - reflexivity.
Defined.

(** The probe with Redis up, and with Redis refusing every call. *)
Lemma health_probe_reply_witness :
  outcome (sim_health (loads_as horace) (sim_world ∅ no_faults ok_reply))
  = Return (HealthDict true)
  ∧ outcome (sim_health (loads_as horace) (sim_world ∅ all_faults ok_reply))
    = Return (JSONResponse 500 false "connection refused").
Proof.
  split.
  - edestruct (@health_probe_reply Sim (sim_runtime (loads_as horace)))
      with (e := sim_world ∅ no_faults ok_reply)
      as ([_ Hok] & _).
    + reflexivity.
    + reflexivity.
    + reflexivity.
    + apply Hok. eexists _, _. split; [reflexivity|]. split; [reflexivity|].
      reflexivity.
  - edestruct (@health_probe_reply Sim (sim_runtime (loads_as horace)))
      with (e := sim_world ∅ all_faults ok_reply)
      as (_ & _ & Hdown & _).
    + reflexivity.
    + reflexivity.
    + reflexivity.
    + exact (Hdown _ eq_refl).
Defined.

(** ** Further properties: the configuration block *)

Lemma str_split_nonempty (sep : ascii) (s : string) : str_split sep s ≠ [].
Proof. induction s as [|c s IH]; simpl; [done|]. destruct (Ascii.eqb c sep); [done|]. by destruct (str_split sep s). Qed.

Lemma str_join_cons (sep : ascii) (w : string) (ws : list string) :
  ws ≠ [] → str_join sep (w :: ws) = w +:+ String sep (str_join sep ws).
Proof. by destruct ws. Qed.

Lemma str_join_split (sep : ascii) (s : string) : str_join sep (str_split sep s) = s.
Proof.
  induction s as [|c s IH]; simpl; [done|].
  destruct (Ascii.eqb_spec c sep) as [->|Hne].
  - rewrite str_join_cons by apply str_split_nonempty. simpl. by rewrite IH.
  - pose proof (str_split_nonempty sep s) as Hn.
    destruct (str_split sep s) as [|w ws]; [done|].
    destruct ws as [|w' ws]; simpl in *; by rewrite <- IH.
Qed.

Lemma str_split_no_sep (sep : ascii) (s w : string) :
  w ∈ str_split sep s → has_char sep w = false.
Proof.
  revert w. induction s as [|c s IH]; simpl; intros w Hin.
  - apply elem_of_cons in Hin as [->|Hin]; [done|by apply elem_of_nil in Hin].
  - destruct (Ascii.eqb_spec c sep) as [->|Hne].
    + apply elem_of_cons in Hin as [->|Hin]; [done|by apply IH].
    + pose proof (str_split_nonempty sep s) as Hn.
      destruct (str_split sep s) as [|w0 ws]; [done|].
      apply elem_of_cons in Hin as [->|Hin].
      * simpl. rewrite (proj2 (Ascii.eqb_neq c sep) Hne). simpl.
        apply IH. by left.
      * apply IH. by right.
Qed.

Lemma str_split_length (sep : ascii) (s : string) :
  length (str_split sep s) = S (count_char sep s).
Proof.
  induction s as [|c s IH]; simpl; [done|].
  destruct (Ascii.eqb c sep); simpl; [by rewrite IH|].
  pose proof (str_split_nonempty sep s) as Hn.
  destruct (str_split sep s) as [|w0 ws]; [done|]. simpl in *. lia.
Qed.

Lemma getenv_or_truthy (env : gmap string string) (k1 k2 : string) :
  get_truthy (getenv_or env k1 k2) = true
  ↔ (∃ v, env !! k1 = Some v ∧ v ≠ "") ∨ (∃ v, env !! k2 = Some v ∧ v ≠ "").
Proof.
  unfold getenv_or. destruct (get_truthy (env !! k1)) eqn:H1.
  - rewrite H1. split; [|done]. intros _. left. by apply get_truthy_spec.
  - split.
    + intros H2. right. by apply get_truthy_spec.
    + intros [H|H]; apply get_truthy_spec in H; congruence.
Qed.

(** X1.  Importing the module succeeds exactly when a URL and a token
    are each set and not empty under one of their two names; otherwise
    it raises the [RuntimeError] that names the two REST variables. *)
Theorem startup_requires_both_credentials (env : gmap string string) :
  ((∃ c, load_config env = Started c)
   ↔ ((∃ v, env !! "UPSTASH_REDIS_REST_URL" = Some v ∧ v ≠ "")
      ∨ (∃ v, env !! "UPSTASH_REDIS_URL" = Some v ∧ v ≠ ""))
     ∧ ((∃ v, env !! "UPSTASH_REDIS_REST_TOKEN" = Some v ∧ v ≠ "")
        ∨ (∃ v, env !! "UPSTASH_REDIS_TOKEN" = Some v ∧ v ≠ "")))
  ∧ ((∀ c, load_config env ≠ Started c) →
     load_config env
     = RuntimeError ("Missing Upstash REST creds. Set UPSTASH_REDIS_REST_URL and "
                     +:+ "UPSTASH_REDIS_REST_TOKEN in your environment.")).
Proof.
  unfold load_config.
  rewrite <- !getenv_or_truthy.
  destruct (get_truthy (getenv_or env "UPSTASH_REDIS_REST_URL" "UPSTASH_REDIS_URL"));
    destruct (get_truthy (getenv_or env "UPSTASH_REDIS_REST_TOKEN" "UPSTASH_REDIS_TOKEN"));
    simpl; (split; [split|]); try done.
  - intros _. by eexists.
  - intros H. by destruct (H _ eq_refl).
  - by intros [c ?].
  - by intros [? ?].
  - by intros [c ?].
  - by intros [? ?].
  - by intros [c ?].
  - by intros [? ?].
Qed.

(** X2.  When the module starts, each credential is the value of its
    REST name if that is set and not empty, and otherwise the value of
    the other name (an empty REST variable does not hide it); both are
    set and not empty. *)
Theorem rest_names_take_precedence (env : gmap string string) (c : Config) :
  load_config env = Started c →
  (∀ v, env !! "UPSTASH_REDIS_REST_URL" = Some v → v ≠ "" → UPSTASH_URL c = Some v)
  ∧ (env !! "UPSTASH_REDIS_REST_URL" = None ∨ env !! "UPSTASH_REDIS_REST_URL" = Some "" →
     UPSTASH_URL c = env !! "UPSTASH_REDIS_URL")
  ∧ (∀ v, env !! "UPSTASH_REDIS_REST_TOKEN" = Some v → v ≠ "" → UPSTASH_TOKEN c = Some v)
  ∧ (env !! "UPSTASH_REDIS_REST_TOKEN" = None ∨ env !! "UPSTASH_REDIS_REST_TOKEN" = Some "" →
     UPSTASH_TOKEN c = env !! "UPSTASH_REDIS_TOKEN")
  ∧ (∃ u t, UPSTASH_URL c = Some u ∧ u ≠ "" ∧ UPSTASH_TOKEN c = Some t ∧ t ≠ "").
Proof.
  unfold load_config.
  destruct (get_truthy (getenv_or env "UPSTASH_REDIS_REST_URL" "UPSTASH_REDIS_URL"))
    eqn:Hu; [|done].
  destruct (get_truthy (getenv_or env "UPSTASH_REDIS_REST_TOKEN" "UPSTASH_REDIS_TOKEN"))
    eqn:Ht; [|done].
  simpl. intros [= <-]. simpl.
  assert (Hfirst : ∀ k1 k2 v, env !! k1 = Some v → v ≠ "" → getenv_or env k1 k2 = Some v).
  { intros k1 k2 v Hk Hv. unfold getenv_or. rewrite Hk. by destruct v. }
  assert (Hsecond : ∀ k1 k2, env !! k1 = None ∨ env !! k1 = Some "" →
            getenv_or env k1 k2 = env !! k2).
  { intros k1 k2 [Hk|Hk]; unfold getenv_or; by rewrite Hk. }
  split; [by apply Hfirst|]. split; [by apply Hsecond|].
  split; [by apply Hfirst|]. split; [by apply Hsecond|].
  apply get_truthy_spec in Hu as (u & Hu & Hnu).
  apply get_truthy_spec in Ht as (t & Ht & Hnt).
  by exists u, t.
Qed.

(** X3.  When the module starts, the CORS allow-list is the value of
    [CORS_ALLOW_ORIGINS] cut at every comma and nowhere else: joining
    the pieces with commas gives the value back, there is one piece
    more than there are commas, and no piece holds a comma.  Without
    the variable the list is the single wildcard. *)
Theorem cors_list_is_cut_at_commas (env : gmap string string) (c : Config) :
  load_config env = Started c →
  str_join "," (CORS_ALLOWED c) = default "*" (env !! "CORS_ALLOW_ORIGINS")
  ∧ length (CORS_ALLOWED c)
    = S (count_char "," (default "*" (env !! "CORS_ALLOW_ORIGINS")))
  ∧ (∀ w, w ∈ CORS_ALLOWED c → has_char "," w = false)
  ∧ (env !! "CORS_ALLOW_ORIGINS" = None → CORS_ALLOWED c = ["*"]).
Proof.
  unfold load_config.
  destruct (negb _ || negb _); [done|]. intros [= <-]. simpl.
  split; [apply str_join_split|]. split; [apply str_split_length|].
  split; [intros w; apply str_split_no_sep|]. by intros ->.
Qed.

(** ** Further properties: trimming *)

Lemma lstrip_no_leading_space (s : string) : starts_with_space (lstrip s) = false.
Proof.
  induction s as [|c s IH]; simpl; [done|].
  destruct (isspace c) eqn:Hc; [done|]. simpl. exact Hc.
Qed.

Lemma rstrip_no_trailing_space (s : string) : ends_with_space (rstrip s) = false.
Proof.
  induction s as [|c s IH]; simpl; [done|].
  destruct (rstrip s) as [|c' r] eqn:Hr.
  - destruct (isspace c) eqn:Hc; simpl; [done|exact Hc].
  - exact IH.
Qed.

Lemma rstrip_keeps_head (s : string) :
  starts_with_space s = false → starts_with_space (rstrip s) = false.
Proof.
  destruct s as [|c s]; simpl; [done|]. intros Hc.
  destruct (rstrip s); [by rewrite Hc|done].
Qed.

Lemma strip_trimmed (s : string) :
  starts_with_space (strip s) = false ∧ ends_with_space (strip s) = false.
Proof.
  unfold strip. split.
  - apply rstrip_keeps_head, lstrip_no_leading_space.
  - apply rstrip_no_trailing_space.
Qed.

Lemma lstrip_all_space (s : string) : all_space (lstrip s) = all_space s.
Proof.
  induction s as [|c s IH]; simpl; [done|].
  destruct (isspace c) eqn:Hc; simpl; [done|by rewrite Hc].
Qed.

Lemma rstrip_empty_iff (s : string) : rstrip s = "" ↔ all_space s = true.
Proof.
  induction s as [|c s IH]; simpl; [done|].
  destruct (rstrip s) as [|c' r] eqn:Hr.
  - destruct (isspace c); simpl; [|done].
    split; [intros _; by apply IH|done].
  - split; [done|]. intros H. apply andb_prop in H as [_ H].
    apply IH in H. discriminate.
Qed.

Lemma strip_empty_iff (s : string) : strip s = "" ↔ all_space s = true.
Proof. unfold strip. by rewrite rstrip_empty_iff, lstrip_all_space. Qed.

Lemma text_of_field_trimmed (v : PyVal) :
  starts_with_space (text_of_field v) = false
  ∧ ends_with_space (text_of_field v) = false.
Proof. destruct v; simpl; try done. apply strip_trimmed. Qed.

Lemma author_of_field_trimmed (v : PyVal) :
  starts_with_space (author_of_field v) = false
  ∧ ends_with_space (author_of_field v) = false.
Proof. destruct v as [| | | |[|c s]| |]; simpl; try done. apply strip_trimmed. Qed.

Lemma substring_length (n : nat) (s : string) :
  String.length (substring 0 n s) = Nat.min n (String.length s).
Proof.
  revert s. induction n as [|n IH]; intros [|c s]; simpl; try done.
  by rewrite IH.
Qed.

Lemma substring_prefix (n : nat) (s : string) :
  String.prefix (substring 0 n s) s = true.
Proof.
  revert s. induction n as [|n IH]; intros [|c s]; simpl; try done.
  destruct (ascii_dec c c); [apply IH|done].
Qed.

Lemma py_get_raises (item : PyVal) (k : string) (x : PyExc) :
  py_get item k = Raise x → ∃ msg, x = AttributeError msg.
Proof. destruct item; simpl; intros [=]; subst; by eexists. Qed.

Lemma py_strip_raises (v : PyVal) (x : PyExc) :
  py_strip v = Raise x → ∃ msg, x = AttributeError msg.
Proof. destruct v; simpl; intros [=]; subst; by eexists. Qed.

Section MoreProperties.
Context {E : Type} `{!Runtime E}.

(** X4.  Whatever the upstream sends, the text and the author that
    [fetch_zenquotes] returns neither begin nor end with whitespace. *)
Theorem fetched_quote_is_trimmed (is_today : bool) (e e' : E) (resp : Response)
    (q : Quote) :
  session_get (endpoint is_today) API_TIMEOUT e = (Return resp, e') →
  outcome (fetch_zenquotes is_today e) = Return q →
  starts_with_space (q_text q) = false ∧ ends_with_space (q_text q) = false
  ∧ starts_with_space (q_author q) = false ∧ ends_with_space (q_author q) = false.
Proof.
  intros Hg Hq.
  destruct (fetch_zenquotes_returns _ _ _ _ _ Hg Hq) as (d & rest & _ & _ & -> & ->).
  destruct (text_of_field_trimmed (default PyNone (d !! "q"))).
  destruct (author_of_field_trimmed (default PyNone (d !! "a"))).
  done.
Qed.

(** X5.  A returned quote has an empty author exactly when the item's
    [a] is a non-empty string of whitespace only, and an empty text
    exactly when its [q] is not a string or is a string of whitespace
    only (the empty one included). *)
Theorem fetched_quote_empty_fields (is_today : bool) (e e' : E) (resp : Response)
    (q : Quote) (d : gmap string PyVal) (rest : list PyVal) :
  session_get (endpoint is_today) API_TIMEOUT e = (Return resp, e') →
  json_loads (body resp) = Some (PyList (PyDict d :: rest)) →
  outcome (fetch_zenquotes is_today e) = Return q →
  (q_author q = "" ↔ ∃ s, d !! "a" = Some (PyStr s) ∧ s ≠ "" ∧ all_space s = true)
  ∧ (q_text q = "" ↔ (∀ s, d !! "q" = Some (PyStr s) → all_space s = true)).
Proof.
  intros Hg Hj Hq.
  destruct (fetch_zenquotes_returns _ _ _ _ _ Hg Hq) as (d' & rest' & _ & Hj' & -> & ->).
  rewrite Hj in Hj'. injection Hj' as <- <-. split.
  - destruct (d !! "a") as [[| | | |s| |]|]; simpl;
      try (split; [done|by intros (s' & [=] & _)]).
    destruct s as [|c s]; [split; [done|by intros (s' & [= <-] & ? & _)]|].
    rewrite strip_empty_iff. split.
    + intros Hs. by exists (String c s).
    + by intros (s' & [= <-] & _ & Hs).
  - destruct (d !! "q") as [[| | | |s| |]|]; simpl; try (split; [done|done]).
    rewrite strip_empty_iff. split.
    + by intros Hs s' [= <-].
    + intros Hs. by apply Hs.
Qed.

(** X6.  A 200 reply whose body parses to a non-empty array is not
    checked further: when the first element is not an object the fetch
    raises the [AttributeError] of the missing [get], and when it is an
    object whose [q] tests true without being a string, that of the
    missing [strip].  Neither is the 502 of a refused reply. *)
Theorem fetch_zenquotes_attribute_error (is_today : bool) (e e' : E)
    (resp : Response) (item : PyVal) (rest : list PyVal) :
  session_get (endpoint is_today) API_TIMEOUT e = (Return resp, e') →
  status resp = 200 →
  json_loads (body resp) = Some (PyList (item :: rest)) →
  ((∀ d, item ≠ PyDict d) →
     fetch_zenquotes is_today e
     = (Raise (AttributeError
                 ("'" +:+ type_name item +:+ "' object has no attribute 'get'")),
        e', [EvGet (endpoint is_today)]))
  ∧ (∀ d v, item = PyDict d → d !! "q" = Some v → truthy v = true →
       (∀ s, v ≠ PyStr s) →
       fetch_zenquotes is_today e
       = (Raise (AttributeError
                   ("'" +:+ type_name v +:+ "' object has no attribute 'strip'")),
          e', [EvGet (endpoint is_today)])).
Proof.
  intros Hg Hs Hj. unfold fetch_zenquotes. fold (endpoint is_today).
  unfold_m. rewrite (get_eq _ _ _ _ _ Hg), Hs, Hj. simpl. split.
  - intros Hnd. destruct item; try done. by destruct (Hnd d).
  - intros d v -> Hv Ht Hns. simpl. rewrite Hv. simpl.
    unfold py_or. rewrite Ht. destruct v; try done. by destruct (Hns s).
Qed.

(** X7.  Only the first element of the array is read: two 200 replies
    whose arrays begin with the same element give the same outcome,
    whatever follows it. *)
Theorem fetch_zenquotes_reads_first_item (is_today : bool) (e1 e1' e2 e2' : E)
    (resp1 resp2 : Response) (item : PyVal) (rest1 rest2 : list PyVal) :
  session_get (endpoint is_today) API_TIMEOUT e1 = (Return resp1, e1') →
  session_get (endpoint is_today) API_TIMEOUT e2 = (Return resp2, e2') →
  status resp1 = 200 → status resp2 = 200 →
  json_loads (body resp1) = Some (PyList (item :: rest1)) →
  json_loads (body resp2) = Some (PyList (item :: rest2)) →
  outcome (fetch_zenquotes is_today e1) = outcome (fetch_zenquotes is_today e2).
Proof.
  intros Hg1 Hg2 Hs1 Hs2 Hj1 Hj2. unfold fetch_zenquotes. fold (endpoint is_today).
  unfold_m. rewrite (get_eq _ _ _ _ _ Hg1), (get_eq _ _ _ _ _ Hg2).
  rewrite Hs1, Hs2, Hj1, Hj2. simpl. unfold outcome.
  destruct (py_get item "q") as [q|x]; simpl; [|done].
  destruct (py_strip (py_or q (PyStr ""))) as [t|x]; simpl; [|done].
  destruct (py_get item "a") as [a|x]; simpl; [|done].
  by destruct (py_strip (py_or a (PyStr "Unknown"))) as [au|x].
Qed.

(** X8.  The detail of the 502 raised for a reply that is not a 200 or
    whose body is not JSON quotes the body cut to its first 160
    characters: the snippet is a prefix of the body and its length is
    the smaller of 160 and the length of the body. *)
Theorem fetch_zenquotes_detail_is_cut (is_today : bool) (e e' : E) (resp : Response) :
  session_get (endpoint is_today) API_TIMEOUT e = (Return resp, e') →
  status resp ≠ 200 ∨ json_loads (body resp) = None →
  ∃ snippet,
    String.prefix snippet (body resp) = true
    ∧ String.length snippet = Nat.min 160 (String.length (body resp))
    ∧ outcome (fetch_zenquotes is_today e)
      = Raise (HTTPException 502
                 (if decide (status resp = 200)
                  then "ZenQuotes non-JSON: " +:+ snippet
                  else "ZenQuotes " +:+ pretty (status resp) +:+ ": " +:+ snippet)).
Proof.
  intros Hg Hbad. exists (substring 0 160 (body resp)).
  split; [apply substring_prefix|]. split; [apply substring_length|].
  unfold fetch_zenquotes. fold (endpoint is_today).
  unfold_m. rewrite (get_eq _ _ _ _ _ Hg). unfold outcome.
  destruct (Z.eqb_spec (status resp) 200) as [Hs|Hs]; simpl.
  - destruct Hbad as [?|Hn]; [done|]. rewrite Hn. by rewrite decide_True.
  - by rewrite decide_False.
Qed.

(** When the upstream replied, the fetch ends in one of three ways
    only. *)
Lemma fetch_zenquotes_failure_kinds (is_today : bool) (e e' : E) (resp : Response) :
  session_get (endpoint is_today) API_TIMEOUT e = (Return resp, e') →
  (∃ q, outcome (fetch_zenquotes is_today e) = Return q)
  ∨ (∃ detail, outcome (fetch_zenquotes is_today e) = Raise (HTTPException 502 detail))
  ∨ (∃ msg, outcome (fetch_zenquotes is_today e) = Raise (AttributeError msg)).
Proof.
  intros Hg. unfold fetch_zenquotes. fold (endpoint is_today).
  unfold_m. rewrite (get_eq _ _ _ _ _ Hg). unfold outcome.
  destruct (negb (status resp =? 200)); simpl; [right; left; by eexists|].
  destruct (json_loads (body resp)) as [data|]; [|right; left; by eexists].
  destruct data as [| | | | |[|item l]|]; try (right; left; by eexists).
  destruct (py_get item "q") as [q|x] eqn:Hq; simpl;
    [|right; right; apply py_get_raises in Hq as [msg ->]; by eexists].
  destruct (py_strip (py_or q (PyStr ""))) as [t|x] eqn:Ht; simpl;
    [|right; right; apply py_strip_raises in Ht as [msg ->]; by eexists].
  destruct (py_get item "a") as [a|x] eqn:Ha; simpl;
    [|right; right; apply py_get_raises in Ha as [msg ->]; by eexists].
  destruct (py_strip (py_or a (PyStr "Unknown"))) as [au|x] eqn:Hau; simpl;
    [left; by eexists|right; right; apply py_strip_raises in Hau as [msg ->]; by eexists].
Qed.

(** X9.  A call makes at most one request upstream and at most one
    cache write, and it writes exactly when it returns a record it
    fetched: never on a cache hit, never when the fetch failed, never
    for a refused date. *)
Theorem get_quote_one_request_one_write (date : string) (e : E) :
  (length (gets (events (get_quote date e))) ≤ 1)%nat
  ∧ (length (writes (events (get_quote date e))) ≤ 1)%nat
  ∧ (writes (events (get_quote date e)) ≠ []
     ↔ gets (events (get_quote date e)) ≠ []
       ∧ ∃ r, outcome (get_quote date e) = Return r).
Proof.
  destruct (get_quote_cases date e)
    as [(x & H)|[(m & t & a & e1 & H)|[(ro & url & x & e3 & H)
       |(ro & url & q & t2 & wo & e5 & H)]]];
    rewrite H; unfold events, outcome, miss_events_raised, miss_events_returned;
    simpl; try destruct ro; try destruct wo; simpl;
    (split; [lia|split; [lia|]]); split; try done;
    try (by intros [? _]); try (by intros [_ [? ?]]).
  all: intros _; split; [done|by eexists].
Qed.

(** X10.  When the HTTP call itself raises (a timeout, a connection
    error), the handler raises the same exception: nothing is written
    to the cache, the calls made are the read, the clock and the
    request, and unless the exception is an [HTTPException] the status
    sent is 500. *)
Theorem transport_failure_goes_through (date : string) (dt today : DateTime)
    (e e1 e2 e3 : E) (ro : Outcome (gmap string string)) (x : PyExc) :
  fromisoformat date = Some dt →
  redis_hgetall (rkey date) e = (ro, e1) →
  ¬ cache_hit ro →
  datetime_now e1 = (today, e2) →
  session_get (endpoint (bool_decide (date_of dt = date_of today))) API_TIMEOUT e2
    = (Raise x, e3) →
  get_quote date e
  = (Raise x, e3,
     EvHgetall (rkey date) :: read_log ro
       ++ [EvNow; EvGet (endpoint (bool_decide (date_of dt = date_of today)))])
  ∧ ((∀ c d, x ≠ HTTPException c d) → status_of (outcome (get_quote date e)) = 500).
Proof.
  intros Hd Hr Hmiss Hn Hg.
  destruct (fetch_zenquotes_get _ _ _ _ Hg) as (fo & Hf & Hx).
  rewrite (Hx x eq_refl) in Hf.
  rewrite (get_quote_miss_fetch_raises _ _ _ _ _ _ _ _ _ _ Hd Hr Hmiss Hn Hf).
  split; [done|]. intros Hne. unfold outcome. simpl.
  destruct x; try done. by destruct (Hne status_code detail).
Qed.

(** X11.  When the date is accepted, the cache did not serve the
    request and the upstream replied, the request ends in one of three
    ways only: a record with status 200, the 502 [HTTPException], or an
    [AttributeError], which goes out as a 500. *)
Theorem get_quote_ends_three_ways (date : string) (dt today : DateTime)
    (e e1 e2 e3 : E) (ro : Outcome (gmap string string)) (resp : Response) :
  fromisoformat date = Some dt →
  redis_hgetall (rkey date) e = (ro, e1) →
  ¬ cache_hit ro →
  datetime_now e1 = (today, e2) →
  session_get (endpoint (bool_decide (date_of dt = date_of today))) API_TIMEOUT e2
    = (Return resp, e3) →
  (∃ r, outcome (get_quote date e) = Return r)
  ∨ (∃ detail, outcome (get_quote date e) = Raise (HTTPException 502 detail))
  ∨ (∃ msg, outcome (get_quote date e) = Raise (AttributeError msg)
            ∧ status_of (outcome (get_quote date e)) = 500).
Proof.
  intros Hd Hr Hmiss Hn Hg.
  pose proof (fetch_zenquotes_failure_kinds _ _ _ _ Hg) as Hk.
  destruct (get_quote_miss_cases _ _ _ _ _ _ _ _ _ Hd Hr Hmiss Hn Hg)
    as [(x & Hf & H)|(q & t2 & e4 & wo & e5 & Hf & Hn2 & Hw & H)];
    rewrite H; unfold outcome; simpl.
  - rewrite Hf in Hk. unfold outcome in Hk. simpl in Hk.
    destruct Hk as [[q [=]]|[[detail [= ->]]|[msg [= ->]]]].
    + right; left. by eexists.
    + right; right. eexists. by split.
  - left. by eexists.
Qed.

(** X12.  The health probe never raises: it always returns a reply,
    sent with status 200 or 500, and the only outside calls it makes
    are clock readings and calls on the probe key. *)
Theorem health_always_replies (e : E) :
  ∃ reply,
    outcome (health e) = Return reply
    ∧ (health_status reply = 200 ∨ health_status reply = 500)
    ∧ (∀ ev, ev ∈ events (health e) → probe_event ev).
Proof.
  unfold health. unfold_m.
  destruct (datetime_now e) as [t e1] eqn:Hn. rewrite (now_eq _ _ _ Hn). simpl.
  destruct (redis_hset "qotd:health" (<["ok" := "1"]> (<["ts" := isoformat t]> ∅)) e1)
    as [wo e2] eqn:Hw.
  rewrite (hset_eq _ _ _ _ _ Hw).
  destruct wo as [n|x]; simpl.
  - destruct (redis_hgetall "qotd:health" e2) as [ro e3] eqn:Hr.
    rewrite (hgetall_eq _ _ _ _ Hr).
    destruct ro as [m|x]; simpl; eexists; (split; [reflexivity|]);
      (split; [by eauto|]); unfold events; simpl; intros ev Hin;
      repeat (apply elem_of_cons in Hin as [->|Hin];
              [unfold probe_event; by eauto|]);
      by apply elem_of_nil in Hin.
  - eexists; split; [reflexivity|]. split; [by right|].
    unfold events; simpl; intros ev Hin;
      repeat (apply elem_of_cons in Hin as [->|Hin];
              [unfold probe_event; by eauto|]);
      by apply elem_of_nil in Hin.
Qed.

(** X13.  When the write and the read both return but the hash read
    back does not hold [ok] equal to ["1"], the probe answers
    [{ok: false}] as a plain dict, which goes out with status 200 and
    not 500. *)
Theorem health_unobserved_write_is_200 (e e1 e2 e3 : E) (t : DateTime) (n : Z)
    (m : gmap string string) :
  datetime_now e = (t, e1) →
  redis_hset "qotd:health" (<["ok" := "1"]> (<["ts" := isoformat t]> ∅)) e1
    = (Return n, e2) →
  redis_hgetall "qotd:health" e2 = (Return m, e3) →
  m !! "ok" ≠ Some "1" →
  outcome (health e) = Return (HealthDict false)
  ∧ health_status (HealthDict false) = 200.
Proof.
  intros Hn Hw Hr Hm. unfold health. unfold_m.
  rewrite (now_eq _ _ _ Hn). simpl. rewrite (hset_eq _ _ _ _ _ Hw). simpl.
  rewrite (hgetall_eq _ _ _ _ Hr). unfold outcome. simpl.
  by rewrite bool_decide_eq_false_2.
Qed.

End MoreProperties.

(** ** Further properties: the handlers on the in-memory store *)

Lemma sim_hgetall_inv (key : string) (s e1 : Sim) (ro : Outcome (gmap string string)) :
  sim_hgetall key s = (ro, e1) →
  e1 = sim_redis_tick s (store s)
  ∧ (redis_fault s (redis_calls s) = None → ro = Return (default ∅ (store s !! key))).
Proof.
  unfold sim_hgetall. destruct (redis_fault s (redis_calls s)); intros [= <- <-]; done.
Qed.

Lemma sim_now_inv (s s' : Sim) (t : DateTime) :
  sim_now s = (t, s') →
  store s' = store s ∧ redis_fault s' = redis_fault s ∧ redis_calls s' = redis_calls s
  ∧ upstream_calls s' = upstream_calls s.
Proof. by intros [= <- <-]. Qed.

Lemma sim_get_inv (url : string) (timeout : Z) (s s' : Sim) (r : Outcome Response) :
  sim_get url timeout s = (r, s') →
  store s' = store s ∧ redis_fault s' = redis_fault s ∧ redis_calls s' = redis_calls s.
Proof. by intros [= <- <-]. Qed.

Lemma sim_hset_inv (key : string) (v : gmap string string) (s s' : Sim) (wo : Outcome Z) :
  sim_hset key v s = (wo, s') →
  redis_fault s' = redis_fault s ∧ redis_calls s' = S (redis_calls s)
  ∧ (store s' = store s
     ∨ store s' = <[key := v ∪ default ∅ (store s !! key)]> (store s))
  ∧ (redis_fault s (redis_calls s) = None →
     store s' = <[key := v ∪ default ∅ (store s !! key)]> (store s)).
Proof.
  unfold sim_hset. destruct (redis_fault s (redis_calls s)); intros [= <- <-]; simpl;
    split; try done; split; try done; split; eauto. done.
Qed.

Section OnTheStore.
Variable loads : string → option PyVal.

(** A fetched record comes with the write that was attempted for it. *)
Lemma sim_miss_returns (date : string) (dt : DateTime) (s s1 : Sim)
    (ro : Outcome (gmap string string)) (e1 : Sim) (r : QuoteRecord)
    (evs : list Event) :
  fromisoformat_date date = Some dt →
  sim_hgetall (rkey date) s = (ro, e1) →
  ¬ cache_hit ro →
  sim_get_quote loads date s = (Return r, s1, evs) →
  ∃ q t2 e4 wo,
    r = fresh_record date q t2
    ∧ store e4 = store s ∧ redis_calls e4 = S (redis_calls s)
    ∧ redis_fault e4 = redis_fault s
    ∧ sim_hset (rkey date) (stored_fields q t2) e4 = (wo, s1).
Proof.
  intros Hd Hr Hmiss Hrun.
  destruct (sim_now e1) as [today e2] eqn:Hn.
  destruct (sim_get (endpoint (bool_decide (date_of dt = date_of today))) API_TIMEOUT e2)
    as [rr e3] eqn:Hg.
  destruct (get_quote_miss_cases (Runtime0 := sim_runtime loads)
              date dt today s e1 e2 e3 ro rr Hd Hr Hmiss Hn Hg)
    as [(x & _ & H)|(q & t2 & e4 & wo & e5 & _ & Hn2 & Hw & H)];
    unfold sim_get_quote in Hrun; rewrite H in Hrun; [done|].
  injection Hrun as <- <- <-.
  exists q, t2, e4, wo.
  apply sim_hgetall_inv in Hr as [-> _].
  apply sim_now_inv in Hn as (Hs2 & Hf2 & Hc2 & _).
  apply sim_get_inv in Hg as (Hs3 & Hf3 & Hc3).
  apply sim_now_inv in Hn2 as (Hs4 & Hf4 & Hc4 & _).
  split; [done|].
  split; [by rewrite Hs4, Hs3, Hs2|].
  split; [by rewrite Hc4, Hc3, Hc2|].
  split; [by rewrite Hf4, Hf3, Hf2|done].
Qed.

Lemma stored_fields_lookup (q : Quote) (t : DateTime) :
  stored_fields q t !! "text" = Some (q_text q)
  ∧ stored_fields q t !! "author" = Some (q_author q)
  ∧ stored_fields q t !! "source" = Some "zenquotes"
  ∧ stored_fields q t !! "stored_at" = Some (isoformat t).
Proof. unfold stored_fields. by simplify_map_eq. Qed.

Lemma stored_fields_other (q : Quote) (t : DateTime) (f : string) :
  f ≠ "text" → f ≠ "author" → f ≠ "source" → f ≠ "stored_at" →
  stored_fields q t !! f = None.
Proof. intros. unfold stored_fields. by simplify_map_eq. Qed.

(** What the store holds after a fetched record was written. *)
Lemma sim_miss_stores (date : string) (dt : DateTime) (s s1 : Sim)
    (r : QuoteRecord) (evs : list Event) :
  fromisoformat_date date = Some dt →
  ¬ cache_hit (sim_hgetall (rkey date) s).1 →
  sim_get_quote loads date s = (Return r, s1, evs) →
  redis_fault s (S (redis_calls s)) = None →
  (∃ m, store s1 !! rkey date = Some m
        ∧ m !! "text" = Some (qr_text r)
        ∧ m !! "author" = Some (qr_author r)
        ∧ m !! "source" = Some (qr_source r)
        ∧ m !! "stored_at" = qr_stored_at r
        ∧ (∀ f, f ≠ "text" → f ≠ "author" → f ≠ "source" → f ≠ "stored_at" →
             m !! f = default ∅ (store s !! rkey date) !! f))
  ∧ (∀ k, k ≠ rkey date → store s1 !! k = store s !! k).
Proof.
  intros Hd Hmiss Hrun Hf.
  destruct (sim_hgetall (rkey date) s) as [ro e1] eqn:Hr.
  destruct (sim_miss_returns _ _ _ _ _ _ _ _ Hd Hr Hmiss Hrun)
    as (q & t2 & e4 & wo & -> & Hs4 & Hc4 & Hf4 & Hw).
  apply sim_hset_inv in Hw as (_ & _ & _ & Hst).
  rewrite Hf4, Hc4, Hs4 in Hst. specialize (Hst Hf). rewrite Hst.
  destruct (stored_fields_lookup q t2) as (Ht & Ha & Hsrc & Hat).
  split.
  - eexists. split; [apply lookup_insert_eq|]. simpl.
    split; [by apply lookup_union_Some_l|].
    split; [by apply lookup_union_Some_l|].
    split; [by apply lookup_union_Some_l|].
    split; [by apply lookup_union_Some_l|].
    intros f ? ? ? ?. apply lookup_union_r. by apply stored_fields_other.
  - intros k Hk. by rewrite lookup_insert_ne.
Qed.

(** X14.  Write-through.  When a request was not served by the cache,
    returned a record, and Redis answered the write, the hash under the
    key of the date holds the record's [text], [author], [source] and
    [stored_at]; the other fields of the hash are as they were and so
    is every other key of the store. *)
Theorem fetched_record_is_stored (date : string) (dt : DateTime) (s s1 : Sim)
    (r : QuoteRecord) (evs : list Event) :
  fromisoformat_date date = Some dt →
  ¬ cache_hit (sim_hgetall (rkey date) s).1 →
  sim_get_quote loads date s = (Return r, s1, evs) →
  redis_fault s (S (redis_calls s)) = None →
  (∃ m, store s1 !! rkey date = Some m
        ∧ m !! "text" = Some (qr_text r)
        ∧ m !! "author" = Some (qr_author r)
        ∧ m !! "source" = Some (qr_source r)
        ∧ m !! "stored_at" = qr_stored_at r
        ∧ (∀ f, f ≠ "text" → f ≠ "author" → f ≠ "source" → f ≠ "stored_at" →
             m !! f = default ∅ (store s !! rkey date) !! f))
  ∧ (∀ k, k ≠ rkey date → store s1 !! k = store s !! k).
Proof. apply sim_miss_stores. Qed.

(** X15.  Miss, then hit.  When a request was not served by the cache,
    returned a record whose text and author are not empty, and Redis
    answers the write and the next read, the same request made again
    returns the same record from the cache: one read and no other
    call. *)
Theorem miss_then_hit (date : string) (dt : DateTime) (s s1 : Sim)
    (r : QuoteRecord) (evs : list Event) :
  fromisoformat_date date = Some dt →
  ¬ cache_hit (sim_hgetall (rkey date) s).1 →
  sim_get_quote loads date s = (Return r, s1, evs) →
  qr_text r ≠ "" → qr_author r ≠ "" →
  redis_fault s (S (redis_calls s)) = None →
  redis_fault s (S (S (redis_calls s))) = None →
  sim_get_quote loads date s1
  = (Return r, sim_redis_tick s1 (store s1), [EvHgetall (rkey date)]).
Proof.
  intros Hd Hmiss Hrun Hnt Hna Hf1 Hf2.
  destruct (sim_miss_stores _ _ _ _ _ _ Hd Hmiss Hrun Hf1)
    as ((m & Hm & Ht & Ha & Hsrc & Hat & _) & _).
  destruct (sim_hgetall (rkey date) s) as [ro e1] eqn:Hr.
  destruct (sim_miss_returns _ _ _ _ _ _ _ _ Hd Hr Hmiss Hrun)
    as (q & t2 & e4 & wo & -> & Hs4 & Hc4 & Hf4 & Hw).
  apply sim_hset_inv in Hw as (Hf5 & Hc5 & _ & _).
  assert (Hread : sim_hgetall (rkey date) s1 = (Return m, sim_redis_tick s1 (store s1))).
  { apply sim_hgetall_stored; [done|]. by rewrite Hf5, Hc5, Hf4, Hc4. }
  unfold sim_get_quote.
  rewrite (get_quote_hit (Runtime0 := sim_runtime loads) date dt s1 _ m _ _
             Hd Hread Ht Hnt Ha Hna).
  unfold cached_record, fresh_record. simpl in *. by rewrite Hsrc, Hat.
Qed.

(** X16.  A record with an empty text or an empty author is written to
    the cache but never served from it: with Redis answering, the same
    request made again goes upstream again. *)
Theorem empty_record_is_fetched_again (date : string) (dt : DateTime) (s s1 : Sim)
    (r : QuoteRecord) (evs : list Event) :
  fromisoformat_date date = Some dt →
  ¬ cache_hit (sim_hgetall (rkey date) s).1 →
  sim_get_quote loads date s = (Return r, s1, evs) →
  qr_text r = "" ∨ qr_author r = "" →
  redis_fault s (S (redis_calls s)) = None →
  redis_fault s (S (S (redis_calls s))) = None →
  (∃ m, store s1 !! rkey date = Some m ∧ ¬ hit_worthy m)
  ∧ ∃ url, EvGet url ∈ events (sim_get_quote loads date s1).
Proof.
  intros Hd Hmiss Hrun Hempty Hf1 Hf2.
  destruct (sim_miss_stores _ _ _ _ _ _ Hd Hmiss Hrun Hf1)
    as ((m & Hm & Ht & Ha & _) & _).
  assert (Hnw : ¬ hit_worthy m).
  { intros (t & a & Ht' & Hnt & Ha' & Hna).
    destruct Hempty as [He|He]; rewrite He in *; congruence. }
  split; [by exists m|].
  destruct (sim_hgetall (rkey date) s) as [ro e1] eqn:Hr.
  destruct (sim_miss_returns _ _ _ _ _ _ _ _ Hd Hr Hmiss Hrun)
    as (q & t2 & e4 & wo & -> & Hs4 & Hc4 & Hf4 & Hw).
  apply sim_hset_inv in Hw as (Hf5 & Hc5 & _ & _).
  assert (Hread : sim_hgetall (rkey date) s1 = (Return m, sim_redis_tick s1 (store s1))).
  { apply sim_hgetall_stored; [done|]. by rewrite Hf5, Hc5, Hf4, Hc4. }
  assert (Hmiss2 : ¬ cache_hit (Return m)) by (by intros (m' & [= <-] & ?)).
  destruct (sim_now (sim_redis_tick s1 (store s1))) as [today e2] eqn:Hn.
  eexists. unfold sim_get_quote.
  by apply (get_quote_miss_gets (Runtime0 := sim_runtime loads)
              date dt today s1 _ e2 (Return m) _ Hd Hread Hmiss2 Hn).
Qed.

(** X17.  A request touches no key but its own: whatever the request
    and however it ends, every other key of the store holds what it
    held before. *)
Theorem get_quote_touches_only_its_key (date : string) (s : Sim) (k : string) :
  k ≠ rkey date →
  store (sim_get_quote loads date s).1.2 !! k = store s !! k.
Proof.
  intros Hk. unfold sim_get_quote.
  destruct (fromisoformat_date date) as [dt|] eqn:Hd;
    [|by rewrite (get_quote_bad_date (Runtime0 := sim_runtime loads) _ _ Hd)].
  destruct (sim_hgetall (rkey date) s) as [ro e1] eqn:Hr.
  pose proof (sim_hgetall_inv _ _ _ _ Hr) as [He1 _].
  destruct (decide (cache_hit ro)) as [(m & -> & t & a & Ht & Hnt & Ha & Hna)|Hmiss].
  - rewrite (get_quote_hit (Runtime0 := sim_runtime loads) _ _ _ _ _ _ _
               Hd Hr Ht Hnt Ha Hna). simpl. by rewrite He1.
  - destruct (sim_now e1) as [today e2] eqn:Hn.
    destruct (sim_get (endpoint (bool_decide (date_of dt = date_of today)))
                API_TIMEOUT e2) as [rr e3] eqn:Hg.
    pose proof (sim_now_inv _ _ _ Hn) as (Hs2 & _).
    pose proof (sim_get_inv _ _ _ _ _ Hg) as (Hs3 & _).
    destruct (get_quote_miss_cases (Runtime0 := sim_runtime loads)
                date dt today s e1 e2 e3 ro rr Hd Hr Hmiss Hn Hg)
      as [(x & _ & H)|(q & t2 & e4 & wo & e5 & _ & Hn2 & Hw & H)];
      rewrite H; simpl.
    + by rewrite Hs3, Hs2, He1.
    + apply sim_now_inv in Hn2 as (Hs4 & _).
      apply sim_hset_inv in Hw as (_ & _ & [Hs5|Hs5] & _); rewrite Hs5.
      * by rewrite Hs4, Hs3, Hs2, He1.
      * rewrite lookup_insert_ne by done. by rewrite Hs4, Hs3, Hs2, He1.
Qed.

Lemma rkey_not_probe (date : string) : rkey date ≠ "qotd:health".
Proof. unfold rkey. cbn. discriminate. Qed.

(** The store after the probe, and its reply when Redis answers. *)
Lemma sim_health_run (s : Sim) :
  (store (sim_health loads s).1.2 = store s
   ∨ store (sim_health loads s).1.2
     = <["qotd:health" := <["ok" := "1"]>
                            (<["ts" := isoformat (clock s (clock_reads s))]> ∅)
                          ∪ default ∅ (store s !! "qotd:health")]> (store s))
  ∧ (redis_fault s (redis_calls s) = None →
     redis_fault s (S (redis_calls s)) = None →
     outcome (sim_health loads s) = Return (HealthDict true)
     ∧ store (sim_health loads s).1.2
       = <["qotd:health" := <["ok" := "1"]>
                              (<["ts" := isoformat (clock s (clock_reads s))]> ∅)
                            ∪ default ∅ (store s !! "qotd:health")]> (store s)).
Proof.
  unfold sim_health, health. unfold_m.
  destruct (sim_now s) as [t e1] eqn:Hn.
  rewrite (now_eq (Runtime0 := sim_runtime loads) s e1 t Hn). simpl.
  destruct (sim_hset "qotd:health" (<["ok" := "1"]> (<["ts" := isoformat t]> ∅)) e1)
    as [wo e2] eqn:Hw.
  rewrite (hset_eq (Runtime0 := sim_runtime loads) _ _ _ _ _ Hw).
  pose proof (sim_hset_inv _ _ _ _ _ Hw) as (Hf2 & Hc2 & Hs2 & Hs2').
  pose proof (sim_now_inv _ _ _ Hn) as (Hs1 & Hf1 & Hc1 & _).
  assert (Ht : t = clock s (clock_reads s)) by (by injection Hn).
  rewrite Hs1, Hf1, Hc1, Ht in *.
  destruct wo as [n|x]; simpl.
  - destruct (sim_hgetall "qotd:health" e2) as [ro e3] eqn:Hr.
    rewrite (hgetall_eq (Runtime0 := sim_runtime loads) _ _ _ _ Hr).
    pose proof (sim_hgetall_inv _ _ _ _ Hr) as [-> Hro].
    split.
    + destruct ro; simpl; exact Hs2.
    + intros H1 H2. rewrite Hf2, Hc2 in Hro. specialize (Hro H2).
      specialize (Hs2' H1). subst ro. simpl. split; [|exact Hs2'].
      unfold outcome. simpl. rewrite Hs2', lookup_insert_eq. simpl.
      rewrite bool_decide_eq_true_2; [done|].
      apply lookup_union_Some_l. by simplify_map_eq.
  - split; [exact Hs2|]. intros H1 _.
    unfold sim_hset in Hw. rewrite Hf1, Hc1, H1 in Hw. discriminate.
Qed.

(** X18.  When Redis answers the write and the read, the probe replies
    [{ok: true}], whatever the probe key held before; afterwards the
    probe hash holds [ok] equal to ["1"] and [ts] equal to the ISO form
    of the clock reading. *)
Theorem health_succeeds_when_redis_answers (s : Sim) :
  redis_fault s (redis_calls s) = None →
  redis_fault s (S (redis_calls s)) = None →
  outcome (sim_health loads s) = Return (HealthDict true)
  ∧ ∃ m, store (sim_health loads s).1.2 !! "qotd:health" = Some m
         ∧ m !! "ok" = Some "1"
         ∧ m !! "ts" = Some (isoformat (clock s (clock_reads s))).
Proof.
  intros H1 H2. destruct (sim_health_run s) as [_ H]. destruct (H H1 H2) as [Ho Hs].
  split; [exact Ho|]. rewrite Hs. eexists. split; [apply lookup_insert_eq|].
  split; apply lookup_union_Some_l; by simplify_map_eq.
Qed.

(** X19.  The probe key is the key of no date, and the probe changes
    no other key: every cached quote is after the probe what it was
    before, whether Redis answered or not. *)
Theorem health_keeps_the_quotes (s : Sim) :
  (∀ date, rkey date ≠ "qotd:health")
  ∧ (∀ k, k ≠ "qotd:health" → store (sim_health loads s).1.2 !! k = store s !! k)
  ∧ (∀ date, store (sim_health loads s).1.2 !! rkey date = store s !! rkey date).
Proof.
  assert (Hk : ∀ k, k ≠ "qotd:health" →
            store (sim_health loads s).1.2 !! k = store s !! k).
  { intros k Hk. destruct (sim_health_run s) as [[Hs|Hs] _]; rewrite Hs; [done|].
    by rewrite lookup_insert_ne. }
  split; [apply rkey_not_probe|]. split; [exact Hk|].
  intros date. apply Hk, rkey_not_probe.
Qed.

End OnTheStore.

(** ** The further properties on concrete inputs *)

(** The example environment starts the module; the empty REST name of
    the URL gives way to the other name. *)
Lemma rest_names_take_precedence_witness :
  load_config example_env
  = Started {| CORS_ALLOWED := ["https://a.example"; " https://b.example"];
               UPSTASH_URL := Some "https://redis.example";
               UPSTASH_TOKEN := Some "secret" |}
  ∧ UPSTASH_URL {| CORS_ALLOWED := ["https://a.example"; " https://b.example"];
                   UPSTASH_URL := Some "https://redis.example";
                   UPSTASH_TOKEN := Some "secret" |}
    = example_env !! "UPSTASH_REDIS_URL".
Proof.
  split; [reflexivity|].
  apply (proj1 (proj2 (rest_names_take_precedence example_env _ eq_refl))).
  right. reflexivity.
Defined.

(** The two origins of the example environment; the space after the
    comma stays with the second. *)
Lemma cors_list_is_cut_at_commas_witness :
  str_join "," ["https://a.example"; " https://b.example"]
  = default "*" (example_env !! "CORS_ALLOW_ORIGINS").
Proof.
  exact (proj1 (cors_list_is_cut_at_commas example_env
                  {| CORS_ALLOWED := ["https://a.example"; " https://b.example"];
                     UPSTASH_URL := Some "https://redis.example";
                     UPSTASH_TOKEN := Some "secret" |} eq_refl)).
Defined.

(** A quote with spaces around both fields. *)
Lemma fetched_quote_is_trimmed_witness :
  outcome (@fetch_zenquotes Sim
             (sim_runtime (loads_as (one_quote (PyStr "  Carpe diem ") (PyStr " Horace "))))
             true (sim_world ∅ no_faults ok_reply))
  = Return {| q_text := "Carpe diem"; q_author := "Horace" |}
  ∧ starts_with_space "Carpe diem" = false ∧ ends_with_space "Carpe diem" = false
  ∧ starts_with_space "Horace" = false ∧ ends_with_space "Horace" = false.
Proof.
  split; [reflexivity|].
  eapply (@fetched_quote_is_trimmed Sim
           (sim_runtime (loads_as (one_quote (PyStr "  Carpe diem ") (PyStr " Horace "))))
           true (sim_world ∅ no_faults ok_reply) _ _
           {| q_text := "Carpe diem"; q_author := "Horace" |}).
  - reflexivity.
  - reflexivity.
Defined.

(** An author of two spaces is returned empty. *)
Lemma fetched_quote_empty_fields_witness :
  q_author {| q_text := "Be kind."; q_author := "" |} = ""
  ↔ ∃ s, (<["q" := PyStr "Be kind."]> (<["a" := PyStr "  "]> ∅) : gmap string PyVal) !! "a"
         = Some (PyStr s) ∧ s ≠ "" ∧ all_space s = true.
Proof.
  edestruct (@fetched_quote_empty_fields Sim
               (sim_runtime (loads_as (one_quote (PyStr "Be kind.") (PyStr "  "))))
               true (sim_world ∅ no_faults ok_reply))
    as [Hauthor _].
  - reflexivity.
  - reflexivity.
  - reflexivity.
  - exact Hauthor.
Defined.

(** A reply whose array holds a number, and one whose quote is a
    number. *)
Lemma fetch_zenquotes_attribute_error_witness :
  @fetch_zenquotes Sim (sim_runtime (loads_as (PyList [PyInt 5])))
    false (sim_world ∅ no_faults ok_reply)
  = (Raise (AttributeError "'int' object has no attribute 'get'"),
     (sim_get "https://zenquotes.io/api/random" API_TIMEOUT
        (sim_world ∅ no_faults ok_reply)).2,
     [EvGet "https://zenquotes.io/api/random"])
  ∧ outcome (@fetch_zenquotes Sim
               (sim_runtime (loads_as (one_quote (PyInt 5) (PyStr "Anon"))))
               false (sim_world ∅ no_faults ok_reply))
    = Raise (AttributeError "'int' object has no attribute 'strip'").
Proof.
  split.
  - edestruct (@fetch_zenquotes_attribute_error Sim
                 (sim_runtime (loads_as (PyList [PyInt 5])))
                 false (sim_world ∅ no_faults ok_reply))
      as [Hget _].
    + reflexivity.
    + reflexivity.
    + reflexivity.
    + apply Hget. discriminate.
  - edestruct (@fetch_zenquotes_attribute_error Sim
                 (sim_runtime (loads_as (one_quote (PyInt 5) (PyStr "Anon"))))
                 false (sim_world ∅ no_faults ok_reply))
      as [_ Hstrip].
    + reflexivity.
    + reflexivity.
    + reflexivity.
    + rewrite (Hstrip _ (PyInt 5) eq_refl); [reflexivity|reflexivity|reflexivity|discriminate].
Defined.

(** The same item followed by nothing and followed by another
    element. *)
Lemma fetch_zenquotes_reads_first_item_witness :
  json_loads (Runtime := sim_runtime (loads_item (PyDict (<["q" := PyStr "Carpe diem"]> ∅)))) "<payload>"
  = Some (PyList [PyDict (<["q" := PyStr "Carpe diem"]> ∅)])
  ∧ json_loads (Runtime := sim_runtime (loads_item (PyDict (<["q" := PyStr "Carpe diem"]> ∅)))) "<longer payload>"
    = Some (PyList [PyDict (<["q" := PyStr "Carpe diem"]> ∅); PyNone])
  ∧ outcome (@fetch_zenquotes Sim (sim_runtime (loads_item (PyDict (<["q" := PyStr "Carpe diem"]> ∅))))
               true (sim_world ∅ no_faults ok_reply))
    = outcome (@fetch_zenquotes Sim (sim_runtime (loads_item (PyDict (<["q" := PyStr "Carpe diem"]> ∅))))
                 true (sim_world ∅ no_faults long_reply)).
Proof.
  split; [reflexivity|]. split; [reflexivity|].
  eapply (@fetch_zenquotes_reads_first_item Sim (sim_runtime (loads_item (PyDict (<["q" := PyStr "Carpe diem"]> ∅))))
            true (sim_world ∅ no_faults ok_reply) _
            (sim_world ∅ no_faults long_reply)).
  - reflexivity.
  - reflexivity.
  - reflexivity.
  - reflexivity.
  - reflexivity.
  - reflexivity.
Defined.

(** A 500 whose body is shorter than the cut. *)
Lemma fetch_zenquotes_detail_is_cut_witness :
  ∃ snippet,
    String.prefix snippet "Internal Server Error" = true
    ∧ String.length snippet = 21%nat
    ∧ outcome (@fetch_zenquotes Sim (sim_runtime (loads_as horace))
                 true (sim_world ∅ no_faults error_reply))
      = Raise (HTTPException 502 ("ZenQuotes 500: " +:+ snippet)).
Proof.
  edestruct (@fetch_zenquotes_detail_is_cut Sim (sim_runtime (loads_as horace))
               true (sim_world ∅ no_faults error_reply))
    as (snippet & Hp & Hl & Ho).
  - reflexivity.
  - left. discriminate.
  - exists snippet. split; [exact Hp|]. split; [exact Hl|exact Ho].
Defined.

(** The upstream times out: the exception goes through and nothing is
    written. *)
Lemma transport_failure_goes_through_witness :
  sim_get_quote (loads_as horace) "2024-01-01" (sim_world ∅ no_faults timeout_reply)
  = (Raise (Exception "TimeoutError"),
     (sim_get_quote (loads_as horace) "2024-01-01"
        (sim_world ∅ no_faults timeout_reply)).1.2,
     [EvHgetall "quote:2024-01-01"; EvNow; EvGet "https://zenquotes.io/api/today"])
  ∧ status_of (outcome (sim_get_quote (loads_as horace) "2024-01-01"
                          (sim_world ∅ no_faults timeout_reply))) = 500.
Proof.
  edestruct (@transport_failure_goes_through Sim (sim_runtime (loads_as horace)))
    with (date := "2024-01-01") (e := sim_world ∅ no_faults timeout_reply)
    as [Hrun Hstatus].
  - reflexivity.
  - reflexivity.
  - intros (m & [= <-] & t & a & Ht & _). discriminate Ht.
  - reflexivity.
  - reflexivity.
  - split; [exact Hrun|]. apply Hstatus. discriminate.
Defined.

(** A reply with a quote ends the first way. *)
Lemma get_quote_ends_three_ways_witness :
  (∃ r, outcome (sim_get_quote (loads_as horace) "2024-01-01"
                   (sim_world ∅ no_faults ok_reply)) = Return r)
  ∨ (∃ detail, outcome (sim_get_quote (loads_as horace) "2024-01-01"
                          (sim_world ∅ no_faults ok_reply))
               = Raise (HTTPException 502 detail))
  ∨ (∃ msg, outcome (sim_get_quote (loads_as horace) "2024-01-01"
                       (sim_world ∅ no_faults ok_reply))
            = Raise (AttributeError msg)
            ∧ status_of (outcome (sim_get_quote (loads_as horace) "2024-01-01"
                                    (sim_world ∅ no_faults ok_reply))) = 500).
Proof.
  eapply (@get_quote_ends_three_ways Sim (sim_runtime (loads_as horace))
            "2024-01-01" _ _ (sim_world ∅ no_faults ok_reply)).
  - reflexivity.
  - reflexivity.
  - intros (m & [= <-] & t & a & Ht & _). discriminate Ht.
  - reflexivity.
  - reflexivity.
Defined.

(** The probe on a Redis that drops the write. *)
Lemma health_unobserved_write_is_200_witness :
  outcome (@health Sim (lossy_runtime (loads_as horace)) (sim_world ∅ no_faults ok_reply))
  = Return (HealthDict false)
  ∧ health_status (HealthDict false) = 200.
Proof.
  eapply (@health_unobserved_write_is_200 Sim (lossy_runtime (loads_as horace))
            (sim_world ∅ no_faults ok_reply)).
  - reflexivity.
  - reflexivity.
  - reflexivity.
  - discriminate.
Defined.

(** An empty cache, a working Redis and the quote of Horace: the first
    request stores the record. *)
Lemma fetched_record_is_stored_witness :
  let run := sim_get_quote (loads_as horace) "2024-01-01"
               (sim_world ∅ no_faults ok_reply) in
  ∃ m, store run.1.2 !! rkey "2024-01-01" = Some m
       ∧ m !! "text" = Some "Carpe diem"
       ∧ m !! "author" = Some "Horace"
       ∧ m !! "source" = Some "zenquotes"
       ∧ m !! "stored_at" = Some "2024-01-01T12:30:05.000250+00:00".
Proof.
  intros run.
  edestruct (fetched_record_is_stored (loads_as horace) "2024-01-01"
               (at_time 2024 1 1 0 0 0 0) (sim_world ∅ no_faults ok_reply) run.1.2
               {| qr_date := "2024-01-01"; qr_text := "Carpe diem";
                  qr_author := "Horace"; qr_source := "zenquotes";
                  qr_stored_at := Some "2024-01-01T12:30:05.000250+00:00" |}
               run.2)
    as ((m & Hm & Ht & Ha & Hs & Hat & _) & _).
  - reflexivity.
  - intros (m & [= <-] & t & a & Ht & _). discriminate Ht.
  - reflexivity.
  - reflexivity.
  - exists m. split; [exact Hm|]. split; [exact Ht|]. split; [exact Ha|].
    split; [exact Hs|exact Hat].
Defined.

(** The miss-then-hit example of the design document. *)
Lemma miss_then_hit_witness :
  let run := sim_get_quote (loads_as horace) "2024-01-01"
               (sim_world ∅ no_faults ok_reply) in
  sim_get_quote (loads_as horace) "2024-01-01" run.1.2
  = (Return {| qr_date := "2024-01-01"; qr_text := "Carpe diem";
               qr_author := "Horace"; qr_source := "zenquotes";
               qr_stored_at := Some "2024-01-01T12:30:05.000250+00:00" |},
     sim_redis_tick run.1.2 (store run.1.2),
     [EvHgetall "quote:2024-01-01"]).
Proof.
  intros run.
  apply (miss_then_hit (loads_as horace) "2024-01-01"
           (at_time 2024 1 1 0 0 0 0) (sim_world ∅ no_faults ok_reply) run.1.2
           {| qr_date := "2024-01-01"; qr_text := "Carpe diem";
              qr_author := "Horace"; qr_source := "zenquotes";
              qr_stored_at := Some "2024-01-01T12:30:05.000250+00:00" |}
           run.2).
  - reflexivity.
  - intros (m & [= <-] & t & a & Ht & _). discriminate Ht.
  - reflexivity.
  - discriminate.
  - discriminate.
  - reflexivity.
  - reflexivity.
Defined.

(** A reply without a quote text: the record is stored with an empty
    text and the next request goes upstream again. *)
Lemma empty_record_is_fetched_again_witness :
  let run := sim_get_quote (loads_as (one_quote PyNone (PyStr "Anon"))) "2024-01-01"
               (sim_world ∅ no_faults ok_reply) in
  ∃ url, EvGet url
         ∈ events (sim_get_quote (loads_as (one_quote PyNone (PyStr "Anon")))
                     "2024-01-01" run.1.2).
Proof.
  intros run.
  edestruct (empty_record_is_fetched_again (loads_as (one_quote PyNone (PyStr "Anon")))
               "2024-01-01" (at_time 2024 1 1 0 0 0 0)
               (sim_world ∅ no_faults ok_reply) run.1.2
               {| qr_date := "2024-01-01"; qr_text := "";
                  qr_author := "Anon"; qr_source := "zenquotes";
                  qr_stored_at := Some "2024-01-01T12:30:05.000250+00:00" |}
               run.2)
    as [_ Hagain].
  - reflexivity.
  - intros (m & [= <-] & t & a & Ht & _). discriminate Ht.
  - reflexivity.
  - left. reflexivity.
  - reflexivity.
  - reflexivity.
  - exact Hagain.
Defined.

(** A request for another day leaves the entry of 2024-01-01 alone. *)
Lemma get_quote_touches_only_its_key_witness :
  store (sim_get_quote (loads_as horace) "2024-01-02"
           (sim_world kind_store no_faults ok_reply)).1.2 !! "quote:2024-01-01"
  = store (sim_world kind_store no_faults ok_reply) !! "quote:2024-01-01".
Proof.
  apply (get_quote_touches_only_its_key (loads_as horace) "2024-01-02"
           (sim_world kind_store no_faults ok_reply) "quote:2024-01-01").
  discriminate.
Defined.

(** The probe on a working Redis. *)
Lemma health_succeeds_when_redis_answers_witness :
  outcome (sim_health (loads_as horace) (sim_world kind_store no_faults ok_reply))
  = Return (HealthDict true).
Proof.
  apply (health_succeeds_when_redis_answers (loads_as horace)
           (sim_world kind_store no_faults ok_reply)).
  - reflexivity.
  - reflexivity.
Defined.
